(** * pulumi-s3-lambda-webstack: the component of [index.js] and its helper

    A shallow embedding of [getDomainAndSubdomain] (helpers) and of the
    [StaticFrontendWithLambdaBackend] component resource (index.js), with the
    properties of the written specification stated over it.

    A JavaScript string is modelled as the [string] of the bytes of its UTF-8
    encoding (the separators ["."] and ["/"] are single bytes that occur in no
    other character), arrays as lists, a thrown exception as the [Throw]
    result. *)

From Stdlib Require Import ZArith Lia Ascii.
From stdpp Require Import base option list strings gmap.

Local Open Scope Z_scope.
Local Open Scope nat_scope.

(** ** JavaScript values shared by both files *)

(** [new Error(message)]. *)
Inductive JsError : Type :=
| Error (message : string).

(** The completion of a call: it returns a value or throws. *)
Inductive Completion (A : Type) : Type :=
| Return (a : A)
| Throw (e : JsError).
Arguments Return {A} a.
Arguments Throw {A} e.

Module Str.

Definition dot : ascii := "."%char.

Definition is_dot (c : ascii) : bool := bool_decide (c = dot).

(** [s.split('.')]: the tokens between the separators, in order. The empty
    string gives one empty token. *)
Fixpoint split (s : string) : list string :=
  match s with
  | EmptyString => [EmptyString]
  | String c rest =>
      if is_dot c then EmptyString :: split rest
      else match split rest with
           | tok :: toks => String c tok :: toks
           | [] => [String c EmptyString]
           end
  end.

(** [parts.join('.')]. *)
Fixpoint join (parts : list string) : string :=
  match parts with
  | [] => ""
  | p :: more =>
      match more with
      | [] => p
      | _ :: _ => p +:+ "." +:+ join more
      end
  end.

(** Number of ['.'] separators of a string. *)
Fixpoint count_dots (s : string) : nat :=
  match s with
  | EmptyString => 0
  | String c rest => (if is_dot c then 1 else 0) + count_dots rest
  end.

Fixpoint dot_free (s : string) : bool :=
  match s with
  | EmptyString => true
  | String c rest => negb (is_dot c) && dot_free rest
  end.

(** Whether the last character of [s] is the separator. *)
Fixpoint ends_with_dot (s : string) : bool :=
  match s with
  | EmptyString => false
  | String c EmptyString => is_dot c
  | String _ rest => ends_with_dot rest
  end.

(** [s] without its last character when that character is the separator. *)
Fixpoint strip_trailing_dot (s : string) : string :=
  match s with
  | EmptyString => EmptyString
  | String c EmptyString => if is_dot c then EmptyString else s
  | String c rest => String c (strip_trailing_dot rest)
  end.

End Str.

(** ** helpers: [getDomainAndSubdomain] *)

Record DomainParts : Type := {
  subdomain : string;
  parentDomain : string;
}.

(** [parts.shift()] leaves the array without its first element. *)
Definition shift (parts : list string) : list string := tail parts.

Definition getDomainAndSubdomain (domain : string) : Completion DomainParts :=
  let parts := Str.split domain in
  if length parts <? 2 then
    Throw (Error ("No TLD found on " +:+ domain))
  else if length parts =? 2 then
    Return {| subdomain := ""; parentDomain := domain |}
  else
    (* parts[0]: the array has at least three elements here *)
    let subdomain := default "" (head parts) in
    let parts := shift parts in
    Return {| subdomain := subdomain;
              (* Trailing "." to canonicalize domain. *)
              parentDomain := Str.join parts +:+ "." |}.

(** The rejoining the specification describes for a split result:
    [subdomain + "." + parentDomain], minus the trailing canonical
    separator. *)
Definition spec_rejoin (p : DomainParts) : string :=
  Str.strip_trailing_dot (subdomain p +:+ "." +:+ parentDomain p).

(** ** The Pulumi SDK surface that index.js is written against

    The SDK and the cloud provider are external to the repository. What the
    component can observe of them is modelled here: resources are registered
    with the engine in program order, every attribute of a registered resource
    is an [Output] that remembers the resource it comes from, and data-source
    calls ([aws.route53.getZone]) are answered by the provider. *)

Inductive ResourceType : Type :=
| ComponentResource (type : string)
| AwsProvider
| AcmCertificate
| AcmCertificateValidation
| Route53Record
| CloudfrontDistribution
| S3Bucket.

#[global] Instance ResourceType_eq_dec : EqDecision ResourceType.
Proof. solve_decision. Defined.

(** A resource object, identified by its class and its logical name. *)
Record ResourceRef : Type := {
  rtype : ResourceType;
  rname : string;
}.

#[global] Instance ResourceRef_eq_dec : EqDecision ResourceRef.
Proof. solve_decision. Defined.

Module Promise.

Inductive t (A : Type) : Type :=
| Resolved (a : A)
| Rejected (reason : string).
Arguments Resolved {A} a.
Arguments Rejected {A} reason.

(** [p.then(f)] *)
Definition then_ {A B : Type} (f : A -> B) (p : t A) : t B :=
  match p with
  | Resolved a => Resolved (f a)
  | Rejected r => Rejected r
  end.

End Promise.

Module Output.

(** [pulumi.Output<A>]: a deferred value and the resources it depends on. *)
Record t (A : Type) : Type := {
  resources : list ResourceRef;
  promise : Promise.t A;
}.
Arguments resources {A} _.
Arguments promise {A} _.

(** [o.apply(f)] *)
Definition apply {A B : Type} (f : A -> B) (o : t A) : t B :=
  {| resources := resources o; promise := Promise.then_ f (promise o) |}.

End Output.

(** [pulumi.Input<A>]: a plain value, a promise or an output. *)
Inductive Input (A : Type) : Type :=
| Plain (a : A)
| OfPromise (p : Promise.t A)
| OfOutput (o : Output.t A).
Arguments Plain {A} a.
Arguments OfPromise {A} p.
Arguments OfOutput {A} o.

Definition input_resources {A : Type} (i : Input A) : list ResourceRef :=
  match i with
  | OfOutput o => Output.resources o
  | Plain _ | OfPromise _ => []
  end.

(** *** Resource arguments, one record per argument object of index.js *)

Module ProviderArgs.
Record t : Type := { profile : option string; region : string }.
End ProviderArgs.

Module CertificateArgs.
Record t : Type := { domainName : string; validationMethod : string }.
End CertificateArgs.

Module RecordAlias.
Record t : Type := {
  name : Input string;
  zoneId : Input string;
  evaluateTargetHealth : bool;
}.
End RecordAlias.

Module RecordArgs.
(** A key that the argument object does not have is [None]. *)
Record t : Type := {
  name : Input string;
  zoneId : Input string;
  type : Input string;
  records : option (list (Input string));
  ttl : option Z;
  aliases : option (list RecordAlias.t);
}.
End RecordArgs.

Module CertificateValidationArgs.
Record t : Type := {
  certificateArn : Input string;
  validationRecordFqdns : list (Input string);
}.
End CertificateValidationArgs.

Module BucketArgs.
Record t : Type := { bucket : string; acl : string }.
End BucketArgs.

Module CustomOriginConfig.
Record t : Type := {
  originProtocolPolicy : string;
  httpPort : Z;
  httpsPort : Z;
  originSslProtocols : list string;
}.
End CustomOriginConfig.

Module Origin.
Record t : Type := {
  originId : Input string;
  domainName : Input string;
  originPath : option string;
  customOriginConfig : CustomOriginConfig.t;
}.
End Origin.

Module Cookies.
Record t : Type := { forward : string }.
End Cookies.

Module ForwardedValues.
Record t : Type := { cookies : Cookies.t; queryString : bool }.
End ForwardedValues.

Module CacheBehavior.
Record t : Type := {
  pathPattern : option string;
  targetOriginId : Input string;
  viewerProtocolPolicy : string;
  allowedMethods : list string;
  cachedMethods : list string;
  forwardedValues : ForwardedValues.t;
  minTtl : Z;
  defaultTtl : Z;
  maxTtl : Z;
}.
End CacheBehavior.

Module CustomErrorResponse.
Record t : Type := {
  errorCode : Z;
  responseCode : Z;
  responsePagePath : string;
}.
End CustomErrorResponse.

Module GeoRestriction.
Record t : Type := { restrictionType : string }.
End GeoRestriction.

Module Restrictions.
Record t : Type := { geoRestriction : GeoRestriction.t }.
End Restrictions.

Module ViewerCertificate.
Record t : Type := {
  acmCertificateArn : Input string;
  sslSupportMethod : string;
}.
End ViewerCertificate.

Module LoggingConfig.
Record t : Type := {
  bucket : Input string;
  includeCookies : bool;
  prefix : string;
}.
End LoggingConfig.

Module DistributionArgs.
Record t : Type := {
  enabled : bool;
  aliases : list string;
  origins : list Origin.t;
  defaultRootObject : string;
  defaultCacheBehavior : CacheBehavior.t;
  orderedCacheBehaviors : list CacheBehavior.t;
  priceClass : string;
  customErrorResponses : list CustomErrorResponse.t;
  restrictions : Restrictions.t;
  viewerCertificate : ViewerCertificate.t;
  loggingConfig : LoggingConfig.t;
}.
End DistributionArgs.

(** The class instantiated by a [new] expression, with its argument object. *)
Inductive ResourceArgs : Type :=
| NewComponent (type : string)
| NewProvider (a : ProviderArgs.t)
| NewCertificate (a : CertificateArgs.t)
| NewCertificateValidation (a : CertificateValidationArgs.t)
| NewRecord (a : RecordArgs.t)
| NewDistribution (a : DistributionArgs.t)
| NewBucket (a : BucketArgs.t).

Definition type_of (a : ResourceArgs) : ResourceType :=
  match a with
  | NewComponent type => ComponentResource type
  | NewProvider _ => AwsProvider
  | NewCertificate _ => AcmCertificate
  | NewCertificateValidation _ => AcmCertificateValidation
  | NewRecord _ => Route53Record
  | NewDistribution _ => CloudfrontDistribution
  | NewBucket _ => S3Bucket
  end.

(** The options object of a [new] expression. *)
Record ResourceOptions : Type := {
  parent : option ResourceRef;
  provider : option ResourceRef;
}.

Record Registration : Type := {
  ref : ResourceRef;
  args : ResourceArgs;
  opts : ResourceOptions;
}.

(** *** Dependencies carried by the argument objects *)

Definition record_alias_resources (a : RecordAlias.t) : list ResourceRef :=
  input_resources (RecordAlias.name a) ++ input_resources (RecordAlias.zoneId a).

Definition origin_resources (o : Origin.t) : list ResourceRef :=
  input_resources (Origin.originId o) ++ input_resources (Origin.domainName o).

Definition args_resources (a : ResourceArgs) : list ResourceRef :=
  match a with
  | NewComponent _ | NewProvider _ | NewCertificate _ | NewBucket _ => []
  | NewCertificateValidation v =>
      input_resources (CertificateValidationArgs.certificateArn v)
      ++ concat (map input_resources (CertificateValidationArgs.validationRecordFqdns v))
  | NewRecord r =>
      input_resources (RecordArgs.name r)
      ++ input_resources (RecordArgs.zoneId r)
      ++ input_resources (RecordArgs.type r)
      ++ concat (map input_resources (default [] (RecordArgs.records r)))
      ++ concat (map record_alias_resources (default [] (RecordArgs.aliases r)))
  | NewDistribution d =>
      concat (map origin_resources (DistributionArgs.origins d))
      ++ input_resources (CacheBehavior.targetOriginId (DistributionArgs.defaultCacheBehavior d))
      ++ concat (map (fun b => input_resources (CacheBehavior.targetOriginId b))
                     (DistributionArgs.orderedCacheBehaviors d))
      ++ input_resources (ViewerCertificate.acmCertificateArn (DistributionArgs.viewerCertificate d))
      ++ input_resources (LoggingConfig.bucket (DistributionArgs.loggingConfig d))
  end.

(** The resources whose outputs flow into the arguments of a registration:
    the engine creates a resource only once these have been created. *)
Definition dependencies (r : Registration) : list ResourceRef :=
  args_resources (args r).

(** *** The provider, the engine state and the instance under construction *)

Record GetZoneResult : Type := { zoneId : string }.

(** What the cloud answers: the attributes it assigns to a resource, the
    hosted zone registered under a name (the registry does not change during
    a run, so the answer depends on the name only), and the ambient
    [aws.config]. *)
Record Cloud : Type := {
  attribute : ResourceRef -> string -> Promise.t string;
  lookupZone : string -> Promise.t GetZoneResult;
  config_profile : option string;
}.

(** A data-source call made during the run. *)
Inductive Invoke : Type :=
| GetZone (name : string).

#[global] Instance Invoke_eq_dec : EqDecision Invoke.
Proof. solve_decision. Defined.

(** A JavaScript value stored in a property of the component. *)
Inductive Value : Type :=
| VUndefined
| VOutput (o : Output.t string)
| VResource (r : ResourceRef).

Record Run : Type := {
  registered : list Registration;        (* [new] expressions, oldest first *)
  invokes : list Invoke;                 (* data-source calls, oldest first *)
  outputs : option (gmap string Value);  (* the argument of [registerOutputs] *)
  this : gmap string Value;              (* own properties set by the constructor *)
}.

Definition start : Run :=
  {| registered := []; invokes := []; outputs := None; this := ∅ |}.

(** Code that updates the run and returns or throws. *)
Definition M (A : Type) : Type := Run -> Completion A * Run.

Definition ret {A : Type} (a : A) : M A := fun st => (Return a, st).

Definition bind {A B : Type} (c : M A) (k : A -> M B) : M B :=
  fun st =>
    match c st with
    | (Return a, st') => k a st'
    | (Throw e, st') => (Throw e, st')
    end.

Definition lift {A : Type} (c : Completion A) : M A := fun st => (c, st).

Declare Scope run_scope.
Delimit Scope run_scope with run.
Notation "x <- c ;; k" := (bind c (fun x => k))
  (at level 100, c at next level, right associativity) : run_scope.
Notation "c ;; k" := (bind c (fun _ => k))
  (at level 100, right associativity) : run_scope.

(** [new C(name, args, opts)]: registers the resource and gives its object. *)
Definition new (name : string) (a : ResourceArgs) (o : ResourceOptions) : M ResourceRef :=
  fun st =>
    let r := {| rtype := type_of a; rname := name |} in
    (Return r,
     {| registered := registered st ++ [{| ref := r; args := a; opts := o |}];
        invokes := invokes st; outputs := outputs st; this := this st |}).

(** [this.registerOutputs(o)] *)
Definition registerOutputs (o : gmap string Value) : M unit :=
  fun st =>
    (Return tt,
     {| registered := registered st; invokes := invokes st;
        outputs := Some o; this := this st |}).

(** [this.key]: a property that was never assigned reads as [undefined]. *)
Definition get_this (key : string) : M Value :=
  fun st => (Return (default VUndefined (this st !! key)), st).

(** [this.key = v] *)
Definition set_this (key : string) (v : Value) : M unit :=
  fun st =>
    (Return tt,
     {| registered := registered st; invokes := invokes st;
        outputs := outputs st; this := <[key := v]> (this st) |}).

Definition no_opts : ResourceOptions := {| parent := None; provider := None |}.

(** ** index.js *)

Definition TEN_MINUTES : Z := (60 * 10)%Z.

Module UrlRegex.

(** The rest of [s] after the prefix [p], when [s] starts with [p]. *)
Fixpoint after_prefix (p s : string) : option string :=
  match p, s with
  | EmptyString, _ => Some s
  | String a p', String b s' => if bool_decide (a = b) then after_prefix p' s' else None
  | String _ _, EmptyString => None
  end.

(** The capture group (any run of characters other than a slash, as long
    as possible): the longest prefix without a slash, and what follows it. *)
Fixpoint no_slash (s : string) : string * string :=
  match s with
  | EmptyString => (EmptyString, EmptyString)
  | String c rest =>
      if bool_decide (c = "/"%char) then (EmptyString, s)
      else let (host, tl) := no_slash rest in (String c host, tl)
  end.

(** Whether [s] starts with a line terminator, the characters that the dot
    of a regular expression without the [s] flag does not match: LF, CR,
    U+2028 and U+2029 (in UTF-8 the bytes E2 80 A8 and E2 80 A9). *)
Definition line_terminator (s : string) : bool :=
  match s with
  | EmptyString => false
  | String c rest =>
      bool_decide (c = "010"%char) || bool_decide (c = "013"%char)
      || (bool_decide (c = "226"%char)
          && match rest with
             | String c1 (String c2 _) =>
                 bool_decide (c1 = "128"%char)
                 && (bool_decide (c2 = "168"%char) || bool_decide (c2 = "169"%char))
             | _ => false
             end)
  end.

(** The final dot-star stops at the first line terminator: what is left of
    [s] from there. *)
Fixpoint after_line (s : string) : string :=
  match s with
  | EmptyString => EmptyString
  | String c rest => if line_terminator (String c rest) then s else after_line rest
  end.

(** [s.replace(re, '$1')] for the regular expression of index.js: http or
    https, colon, two slashes, the capture group, then the rest of the line.
    A string that does not match is returned unchanged. *)
Definition replace (s : string) : string :=
  let after_scheme :=
    match after_prefix "https://" s with
    | Some r => Some r
    | None => after_prefix "http://" s
    end in
  match after_scheme with
  | Some r => let (host, tl) := no_slash r in host +:+ after_line tl
  | None => s
  end.

End UrlRegex.

(** The objects the caller passes in: only the properties index.js reads. *)
Record Bucket : Type := {
  arn : Output.t string;
  websiteEndpoint : Output.t string;
  bucketDomainName : Output.t string;
}.

Record ApiGateway : Type := { url : Output.t string }.

Section Component.

Variable aws : Cloud.

Local Open Scope run_scope.

(** [r.key] on a resource object: an output of that resource. *)
Definition prop (r : ResourceRef) (key : string) : Output.t string :=
  {| Output.resources := [r]; Output.promise := attribute aws r key |}.

(** The properties of an [aws.s3.Bucket] object read by index.js. *)
Definition bucket_object (r : ResourceRef) : Bucket :=
  {| arn := prop r "arn";
     websiteEndpoint := prop r "websiteEndpoint";
     bucketDomainName := prop r "bucketDomainName" |}.

(** [aws.route53.getZone({ name }, { async: true })] *)
Definition getZone (name : string) : M (Promise.t GetZoneResult) :=
  fun st =>
    (Return (lookupZone aws name),
     {| registered := registered st; invokes := invokes st ++ [GetZone name];
        outputs := outputs st; this := this st |}).

Definition createCloudFrontDistribution (self : ResourceRef)
    (name targetDomain : string) (contentBucket : Bucket) (apiGateway : ApiGateway)
    (certificateArn : Output.t string) (logsBucket : Bucket) : M ResourceRef :=
  new (name +:+ "-cloudfront") (NewDistribution {|
    DistributionArgs.enabled := true;
    DistributionArgs.aliases := [targetDomain];
    DistributionArgs.origins := [
      {| Origin.originId := OfOutput (arn contentBucket);
         Origin.domainName := OfOutput (websiteEndpoint contentBucket);
         Origin.originPath := None;
         Origin.customOriginConfig := {|
           CustomOriginConfig.originProtocolPolicy := "http-only";
           CustomOriginConfig.httpPort := 80;
           CustomOriginConfig.httpsPort := 443;
           CustomOriginConfig.originSslProtocols := ["TLSv1.2"] |} |};
      {| Origin.domainName := OfOutput (Output.apply UrlRegex.replace (url apiGateway));
         Origin.originId := Plain "api";
         Origin.originPath := Some "/stage";
         Origin.customOriginConfig := {|
           CustomOriginConfig.originProtocolPolicy := "https-only";
           CustomOriginConfig.httpPort := 80;
           CustomOriginConfig.httpsPort := 443;
           CustomOriginConfig.originSslProtocols := ["TLSv1.2"] |} |} ];
    DistributionArgs.defaultRootObject := "index.html";
    DistributionArgs.defaultCacheBehavior := {|
      CacheBehavior.pathPattern := None;
      CacheBehavior.targetOriginId := OfOutput (arn contentBucket);
      CacheBehavior.viewerProtocolPolicy := "redirect-to-https";
      CacheBehavior.allowedMethods := ["GET"; "HEAD"; "OPTIONS"];
      CacheBehavior.cachedMethods := ["GET"; "HEAD"; "OPTIONS"];
      CacheBehavior.forwardedValues := {|
        ForwardedValues.cookies := {| Cookies.forward := "none" |};
        ForwardedValues.queryString := false |};
      CacheBehavior.minTtl := 0;
      CacheBehavior.defaultTtl := TEN_MINUTES;
      CacheBehavior.maxTtl := TEN_MINUTES |};
    DistributionArgs.orderedCacheBehaviors := [
      {| CacheBehavior.pathPattern := Some "/api/*";
         CacheBehavior.allowedMethods :=
           ["DELETE"; "GET"; "HEAD"; "OPTIONS"; "PATCH"; "POST"; "PUT"];
         CacheBehavior.cachedMethods := ["HEAD"; "GET"; "OPTIONS"];
         CacheBehavior.targetOriginId := Plain "api";
         CacheBehavior.defaultTtl := 0;
         CacheBehavior.minTtl := 0;
         CacheBehavior.maxTtl := 0;
         CacheBehavior.forwardedValues := {|
           ForwardedValues.queryString := true;
           ForwardedValues.cookies := {| Cookies.forward := "all" |} |};
         CacheBehavior.viewerProtocolPolicy := "redirect-to-https" |} ];
    DistributionArgs.priceClass := "PriceClass_100";
    DistributionArgs.customErrorResponses := [
      {| CustomErrorResponse.errorCode := 404;
         CustomErrorResponse.responseCode := 404;
         CustomErrorResponse.responsePagePath := "/404.html" |};
      {| CustomErrorResponse.errorCode := 403;
         CustomErrorResponse.responseCode := 200;
         CustomErrorResponse.responsePagePath := "/index.html" |} ];
    DistributionArgs.restrictions := {|
      Restrictions.geoRestriction := {| GeoRestriction.restrictionType := "none" |} |};
    DistributionArgs.viewerCertificate := {|
      ViewerCertificate.acmCertificateArn := OfOutput certificateArn;
      ViewerCertificate.sslSupportMethod := "sni-only" |};
    DistributionArgs.loggingConfig := {|
      LoggingConfig.bucket := OfOutput (bucketDomainName logsBucket);
      LoggingConfig.includeCookies := false;
      LoggingConfig.prefix := targetDomain +:+ "/" |}
  |}) {| parent := Some self; provider := None |}.

Definition createLogsBucket (self : ResourceRef) (name targetDomain : string)
    : M ResourceRef :=
  new (name +:+ "-front-logs")
    (NewBucket {| BucketArgs.bucket := targetDomain +:+ "-logs";
                  BucketArgs.acl := "private" |})
    {| parent := Some self; provider := None |}.

Definition provisionCertificate (self : ResourceRef) (name targetDomain : string)
    : M (Output.t string) :=
  eastRegion <- new "east"
    (NewProvider {| ProviderArgs.profile := config_profile aws;
                    ProviderArgs.region := "us-east-1" |})
    no_opts ;;
  certificate <- new (name +:+ "-certificate")
    (NewCertificate {| CertificateArgs.domainName := targetDomain;
                       CertificateArgs.validationMethod := "DNS" |})
    {| provider := Some eastRegion; parent := Some self |} ;;
  domainParts <- lift (getDomainAndSubdomain targetDomain) ;;
  zone <- getZone (parentDomain domainParts) ;;
  let hostedZoneId := Promise.then_ zoneId zone in
  certificateValidationDomain <- new (name +:+ "-validation")
    (NewRecord {|
       RecordArgs.name :=
         OfOutput (prop certificate "domainValidationOptions[0].resourceRecordName");
       RecordArgs.zoneId := OfPromise hostedZoneId;
       RecordArgs.type :=
         OfOutput (prop certificate "domainValidationOptions[0].resourceRecordType");
       RecordArgs.records :=
         Some [OfOutput (prop certificate "domainValidationOptions[0].resourceRecordValue")];
       RecordArgs.ttl := Some TEN_MINUTES;
       RecordArgs.aliases := None |})
    {| parent := Some self; provider := None |} ;;
  certificateValidation <- new (name +:+ "-certificateValidation")
    (NewCertificateValidation {|
       CertificateValidationArgs.certificateArn := OfOutput (prop certificate "arn");
       CertificateValidationArgs.validationRecordFqdns :=
         [OfOutput (prop certificateValidationDomain "fqdn")] |})
    {| provider := Some eastRegion; parent := Some self |} ;;
  ret (prop certificateValidation "certificateArn").

Definition createAliasRecord (self : ResourceRef) (name targetDomain : string)
    (distribution : ResourceRef) : M ResourceRef :=
  domainParts <- lift (getDomainAndSubdomain targetDomain) ;;
  zone <- getZone (parentDomain domainParts) ;;
  let hostedZoneId := Promise.then_ zoneId zone in
  new name
    (NewRecord {|
       RecordArgs.name := Plain (subdomain domainParts);
       RecordArgs.zoneId := OfPromise hostedZoneId;
       RecordArgs.type := Plain "A";
       RecordArgs.records := None;
       RecordArgs.ttl := None;
       RecordArgs.aliases := Some [
         {| RecordAlias.name := OfOutput (prop distribution "domainName");
            RecordAlias.zoneId := OfOutput (prop distribution "hostedZoneId");
            RecordAlias.evaluateTargetHealth := true |} ] |})
    {| parent := Some self; provider := None |}.

(** [new StaticFrontendWithLambdaBackend(name, targetDomain, contentBucket,
    apiGateway, logsBucket)]; an omitted [logsBucket] is [None]. *)
Definition constructor (name targetDomain : string) (contentBucket : Bucket)
    (apiGateway : ApiGateway) (logsBucket : option Bucket) : M unit :=
  self <- new name (NewComponent "StaticFrontendWithLambdaBackend") no_opts ;;
  logsBucket <- match logsBucket with
                | None => b <- createLogsBucket self name targetDomain ;;
                          ret (bucket_object b)
                | Some b => ret b
                end ;;
  certificateArn <- provisionCertificate self name targetDomain ;;
  cloudFrontDistribution <- createCloudFrontDistribution self name
    targetDomain contentBucket apiGateway certificateArn logsBucket ;;
  aliasRecord <- createAliasRecord self name targetDomain cloudFrontDistribution ;;
  this_aliasRecord <- get_this "aliasRecord" ;;
  registerOutputs
    (<["certificateArn" := VOutput certificateArn]>
     (<["aliasRecord" := this_aliasRecord]>
      (<["cloudFrontDistribution" := VResource cloudFrontDistribution]> ∅))) ;;
  set_this "certificateArn" (VOutput certificateArn) ;;
  set_this "cloudFrontDistribution" (VResource cloudFrontDistribution) ;;
  set_this "aliasRecord" (VResource aliasRecord).

End Component.

(** ** Notions of the specification, stated over the run *)

(** The custom error response a distribution applies to an upstream status. *)
Definition error_remap (d : DistributionArgs.t) (code : Z) : option (Z * string) :=
  (fun r => (CustomErrorResponse.responseCode r, CustomErrorResponse.responsePagePath r))
    <$> List.find (fun r => (CustomErrorResponse.errorCode r =? code)%Z)
                  (DistributionArgs.customErrorResponses d).

(** The buckets of a run, each with its logical name. *)
Definition buckets (st : Run) : list (string * BucketArgs.t) :=
  omap (fun reg => match args reg with
                   | NewBucket b => Some (rname (ref reg), b)
                   | _ => None
                   end) (registered st).

(** The DNS records of a run, each with its logical name. *)
Definition dns_records (st : Run) : list (string * RecordArgs.t) :=
  omap (fun reg => match args reg with
                   | NewRecord r => Some (rname (ref reg), r)
                   | _ => None
                   end) (registered st).

(** How many times the run looked a zone name up. *)
Definition zone_lookups (name : string) (st : Run) : nat :=
  length (filter (fun i => i = GetZone name) (invokes st)).

(** The dependencies of resource [r] among the resources of the run. *)
Definition deps_of (regs : list Registration) (r : ResourceRef) : list ResourceRef :=
  filter (fun d => d ∈ map ref regs)
    (concat (map dependencies (filter (fun reg => ref reg = r) regs))).

(** [sched] is an order in which the engine may create resources: each one
    comes after all of its dependencies. [created] are those created before. *)
Fixpoint creation_order_from (regs : list Registration)
    (created sched : list ResourceRef) : bool :=
  match sched with
  | [] => true
  | r :: rest =>
      forallb (fun d => bool_decide (d ∈ created)) (deps_of regs r)
      && creation_order_from regs (r :: created) rest
  end.

Definition creation_order (regs : list Registration) (sched : list ResourceRef) : bool :=
  creation_order_from regs [] sched.

(** Every creation of [b] in [sched] comes strictly after a creation of [a]. *)
Definition precedes (a b : ResourceRef) (sched : list ResourceRef) : Prop :=
  forall j, sched !! j = Some b -> exists i, i < j /\ sched !! i = Some a.

(** The resource objects a run of the constructor creates for [name]. *)
Definition validation_record_of (name : string) : ResourceRef :=
  {| rtype := Route53Record; rname := name +:+ "-validation" |}.

Definition certificate_validation_of (name : string) : ResourceRef :=
  {| rtype := AcmCertificateValidation; rname := name +:+ "-certificateValidation" |}.

Definition distribution_of (name : string) : ResourceRef :=
  {| rtype := CloudfrontDistribution; rname := name +:+ "-cloudfront" |}.

Definition alias_record_of (name : string) : ResourceRef :=
  {| rtype := Route53Record; rname := name |}.

Definition component_of (name : string) : ResourceRef :=
  {| rtype := ComponentResource "StaticFrontendWithLambdaBackend"; rname := name |}.

(** A provider used by the examples: attributes and zones derived from names. *)
Definition demo_cloud : Cloud :=
  {| attribute := fun r key => Promise.Resolved (rname r +:+ "#" +:+ key);
     lookupZone := fun name => Promise.Resolved {| zoneId := "zone:" +:+ name |};
     config_profile := None |}.

Definition demo_bucket (name : string) : Bucket :=
  bucket_object demo_cloud {| rtype := S3Bucket; rname := name |}.

Definition demo_api : ApiGateway :=
  {| url := {| Output.resources := [];
               Output.promise := Promise.Resolved "https://abc.execute-api.eu-west-1.amazonaws.com/stage/" |} |}.

(** The run of the constructor on a three-label domain, logs bucket omitted. *)
Definition demo_run : Completion unit * Run :=
  constructor demo_cloud "site" "www.example.com" (demo_bucket "content") demo_api None start.

(** The resources of that run in the order of their [new] expressions. *)
Definition demo_schedule : list ResourceRef := map ref (registered demo_run.2).

(** The other resource objects of a run. *)
Definition east_provider : ResourceRef :=
  {| rtype := AwsProvider; rname := "east" |}.

Definition certificate_of (name : string) : ResourceRef :=
  {| rtype := AcmCertificate; rname := name +:+ "-certificate" |}.

Definition logs_bucket_of (name : string) : ResourceRef :=
  {| rtype := S3Bucket; rname := name +:+ "-front-logs" |}.

(** The distributions of a run. *)
Definition distributions (st : Run) : list DistributionArgs.t :=
  omap (fun reg => match args reg with
                   | NewDistribution d => Some d
                   | _ => None
                   end) (registered st).

(** The certificates of a run. *)
Definition certificates (st : Run) : list CertificateArgs.t :=
  omap (fun reg => match args reg with
                   | NewCertificate c => Some c
                   | _ => None
                   end) (registered st).



Fixpoint slash_free (s : string) : bool :=
  match s with
  | EmptyString => true
  | String c rest => negb (bool_decide (c = "/"%char)) && slash_free rest
  end.

(** No line terminator (LF, CR, U+2028, U+2029) starts anywhere in [s]. *)
Fixpoint single_line (s : string) : bool :=
  match s with
  | EmptyString => true
  | String c rest => negb (UrlRegex.line_terminator (String c rest)) && single_line rest
  end.

(** [s] is empty or starts with a line terminator. *)
Definition at_line_end (s : string) : bool :=
  match s with
  | EmptyString => true
  | String _ _ => UrlRegex.line_terminator s
  end.

(** The characters U+2028 (line separator) and U+2029 (paragraph separator). *)
Definition line_separator : string :=
  String "226"%char (String "128"%char (String "168"%char EmptyString)).

Definition paragraph_separator : string :=
  String "226"%char (String "128"%char (String "169"%char EmptyString)).

(** A provider that knows no hosted zone. *)
Definition demo_cloud_without_zone : Cloud :=
  {| attribute := attribute demo_cloud;
     lookupZone := fun name => Promise.Rejected ("no matching Route53Zone found: " +:+ name);
     config_profile := None |}.

(** The resources that the outputs passed in by the caller depend on. *)
Definition caller_resources (contentBucket : Bucket) (apiGateway : ApiGateway)
    (logsBucket : option Bucket) : list ResourceRef :=
  Output.resources (arn contentBucket)
  ++ Output.resources (websiteEndpoint contentBucket)
  ++ Output.resources (url apiGateway)
  ++ match logsBucket with
     | Some b => Output.resources (bucketDomainName b)
     | None => []
     end.

(** None of the resources [rs] is among the resources registered in [st]. *)
Definition foreign_to (st : Run) (rs : list ResourceRef) : bool :=
  forallb (fun d => negb (bool_decide (d ∈ map ref (registered st)))) rs.

(** * Properties *)

(** ** Strings *)

Section StringFacts.

Lemma is_dot_true c : Str.is_dot c = true -> c = Str.dot.
Proof. unfold Str.is_dot. intros H. by apply bool_decide_eq_true in H. Qed.

Lemma append_cons (c : ascii) (a b : string) : String c a +:+ b = String c (a +:+ b).
Proof. reflexivity. Qed.

Lemma append_assoc (a b c : string) : (a +:+ b) +:+ c = a +:+ (b +:+ c).
Proof.
  induction a as [|x a IH]; [done |].
  rewrite !append_cons. by f_equal.
Qed.

Lemma split_nonempty s : Str.split s <> [].
Proof.
  destruct s as [|c s]; simpl; [done |].
  destruct (Str.is_dot c); [done |]. by destruct (Str.split s).
Qed.

Lemma split_length s : length (Str.split s) = S (Str.count_dots s).
Proof.
  induction s as [|c s IH]; simpl; [done |].
  destruct (Str.is_dot c); simpl; [by rewrite IH |].
  destruct (Str.split s) as [|tok toks] eqn:E; simpl in *; lia.
Qed.

(** Joining the tokens gives the string back. *)
Lemma join_split s : Str.join (Str.split s) = s.
Proof.
  induction s as [|c s IH]; [done |].
  cbn [Str.split]. destruct (Str.is_dot c) eqn:Hc.
  - apply is_dot_true in Hc as ->.
    pose proof (split_nonempty s) as Hne.
    destruct (Str.split s) as [|tok toks] eqn:E; [done |].
    cbn [Str.join]. cbn [Str.join] in IH. by rewrite IH.
  - pose proof (split_nonempty s) as Hne.
    destruct (Str.split s) as [|tok toks] eqn:E; [done |].
    destruct toks as [|t ts].
    + cbn [Str.join] in *. by rewrite IH.
    + change (Str.join (String c tok :: t :: ts))
        with (String c (tok +:+ "." +:+ Str.join (t :: ts))).
      change (Str.join (tok :: t :: ts))
        with (tok +:+ "." +:+ Str.join (t :: ts)) in IH.
      by rewrite IH.
Qed.

(** No token contains the separator. *)
Lemma split_dot_free s : Forall (fun tok => Str.dot_free tok = true) (Str.split s).
Proof.
  induction s as [|c s IH]; simpl; [by repeat constructor |].
  destruct (Str.is_dot c) eqn:Hc; [by constructor |].
  destruct (Str.split s) as [|tok toks]; [by repeat constructor; simpl; rewrite Hc |].
  inversion IH; subst. constructor; [| done]. simpl. by rewrite Hc.
Qed.

(** A separator after a separator-free prefix ends the first token. *)
Lemma split_app first s :
  Str.dot_free first = true ->
  Str.split (first +:+ "." +:+ s) = first :: Str.split s.
Proof.
  induction first as [|c first IH]; [done |].
  rewrite append_cons. cbn [Str.dot_free Str.split].
  intros [Hc Hf]%andb_prop. apply negb_true_iff in Hc. rewrite Hc.
  by rewrite (IH Hf).
Qed.

Lemma strip_trailing_dot_app s : Str.strip_trailing_dot (s +:+ ".") = s.
Proof.
  induction s as [|c s IH]; [done |].
  change (String c s +:+ ".") with (String c (s +:+ ".")).
  cbn [Str.strip_trailing_dot]. rewrite IH. by destruct s.
Qed.

Lemma ends_with_dot_app s : Str.ends_with_dot (s +:+ ".") = true.
Proof.
  induction s as [|c s IH]; [done |].
  change (String c s +:+ ".") with (String c (s +:+ ".")).
  cbn [Str.ends_with_dot]. rewrite IH. by destruct s.
Qed.

End StringFacts.

(** ** helpers: the domain splitter *)

Example split_www : Str.split "www.example.com" = ["www"; "example"; "com"].
Proof. reflexivity. Qed.

Example split_empty : Str.split "" = [""].
Proof. reflexivity. Qed.

Example split_consecutive : Str.split "a..b." = ["a"; ""; "b"; ""].
Proof. reflexivity. Qed.

Example split_two_labels : getDomainAndSubdomain "example.com"
  = Return {| subdomain := ""; parentDomain := "example.com" |}.
Proof. reflexivity. Qed.

Example split_three_labels : getDomainAndSubdomain "www.example.com"
  = Return {| subdomain := "www"; parentDomain := "example.com." |}.
Proof. reflexivity. Qed.

Example split_four_labels : getDomainAndSubdomain "a.b.example.com"
  = Return {| subdomain := "a"; parentDomain := "b.example.com." |}.
Proof. reflexivity. Qed.

Example split_localhost : getDomainAndSubdomain "localhost"
  = Throw (Error "No TLD found on localhost").
Proof. reflexivity. Qed.

Section Splitter.

Implicit Types domain : string.

Lemma split_throws domain :
  length (Str.split domain) < 2 ->
  getDomainAndSubdomain domain = Throw (Error ("No TLD found on " +:+ domain)).
Proof.
  intros H. unfold getDomainAndSubdomain.
  by destruct (Nat.ltb_spec (length (Str.split domain)) 2); [| lia].
Qed.

Lemma split_two domain :
  length (Str.split domain) = 2 ->
  getDomainAndSubdomain domain = Return {| subdomain := ""; parentDomain := domain |}.
Proof. intros H. unfold getDomainAndSubdomain. by rewrite H. Qed.

Lemma split_many domain :
  3 <= length (Str.split domain) ->
  exists first rest,
    Str.split domain = first :: rest /\ 2 <= length rest /\
    getDomainAndSubdomain domain
    = Return {| subdomain := first; parentDomain := Str.join rest +:+ "." |}.
Proof.
  intros H. unfold getDomainAndSubdomain.
  destruct (Str.split domain) as [|first rest] eqn:E; simpl in H; [lia |].
  exists first, rest. split; [done |]. split; [lia |].
  destruct (Nat.ltb_spec (length (first :: rest)) 2) as [Hlt|_];
    [simpl in Hlt; lia |].
  destruct (Nat.eqb_spec (length (first :: rest)) 2) as [Heq|_];
    [simpl in Heq; lia | reflexivity].
Qed.

(** Every input falls in one of the three cases, decided by its separators. *)
Lemma split_cases domain :
  match Str.count_dots domain with
  | 0 => getDomainAndSubdomain domain = Throw (Error ("No TLD found on " +:+ domain))
  | 1 => getDomainAndSubdomain domain = Return {| subdomain := ""; parentDomain := domain |}
  | _ => exists first rest,
           Str.split domain = first :: rest /\ 2 <= length rest /\
           getDomainAndSubdomain domain
           = Return {| subdomain := first; parentDomain := Str.join rest +:+ "." |}
  end.
Proof.
  pose proof (split_length domain) as L.
  destruct (Str.count_dots domain) as [|[|n]].
  - apply split_throws. lia.
  - by apply split_two.
  - apply split_many. lia.
Qed.

Lemma split_returns_iff domain :
  (exists p, getDomainAndSubdomain domain = Return p) <-> 1 <= Str.count_dots domain.
Proof.
  pose proof (split_cases domain) as C.
  destruct (Str.count_dots domain) as [|[|n]].
  - rewrite C. split; [intros [p Hp]; discriminate | lia].
  - rewrite C. split; [lia | eauto].
  - destruct C as (first & rest & _ & _ & R). rewrite R. split; [lia | eauto].
Qed.

End Splitter.

(** C1. A string has one token more than it has separators. With three
    tokens or more (two separators or more) the input is its first token, a
    separator and the other tokens joined with ["."]: [getDomainAndSubdomain]
    returns that first token, which contains no separator, as the subdomain
    and the joined other tokens followed by a ["."] as the parent domain.
    With exactly two tokens (one separator) it returns the empty subdomain
    and the whole input as the parent domain. *)
Theorem getDomainAndSubdomain_tokens (domain : string) :
  length (Str.split domain) = S (Str.count_dots domain)
  /\ (2 <= Str.count_dots domain ->
      exists first rest remainder,
        Str.split domain = first :: rest
        /\ 2 <= length rest
        /\ Str.dot_free first = true
        /\ Forall (fun tok => Str.dot_free tok = true) rest
        /\ Str.join rest = remainder
        /\ domain = first +:+ "." +:+ remainder
        /\ getDomainAndSubdomain domain
           = Return {| subdomain := first; parentDomain := remainder +:+ "." |})
  /\ (Str.count_dots domain = 1 ->
      length (Str.split domain) = 2
      /\ getDomainAndSubdomain domain
         = Return {| subdomain := ""; parentDomain := domain |}).
Proof.
  pose proof (split_length domain) as L. split; [done |]. split.
  - intros H.
    destruct (split_many domain) as (first & rest & E & Hlen & R); [lia |].
    pose proof (split_dot_free domain) as F. rewrite E in F.
    inversion F as [|? ? Hfirst Hrest]; subst.
    exists first, rest, (Str.join rest). repeat split; try done.
    rewrite <- (join_split domain) at 1. rewrite E.
    destruct rest as [|r rest]; [simpl in Hlen; lia | done].
  - intros H. split; [lia |]. apply split_two. lia.
Qed.

Lemma getDomainAndSubdomain_tokens_witness :
  (exists first rest remainder,
     Str.split "a.b.example.com" = first :: rest
     /\ 2 <= length rest
     /\ Str.dot_free first = true
     /\ Forall (fun tok => Str.dot_free tok = true) rest
     /\ Str.join rest = remainder
     /\ "a.b.example.com" = first +:+ "." +:+ remainder
     /\ getDomainAndSubdomain "a.b.example.com"
        = Return {| subdomain := first; parentDomain := remainder +:+ "." |})
  /\ (length (Str.split "example.com") = 2
      /\ getDomainAndSubdomain "example.com"
         = Return {| subdomain := ""; parentDomain := "example.com" |}).
Proof.
  split.
  - apply (proj1 (proj2 (getDomainAndSubdomain_tokens "a.b.example.com"))). simpl. lia.
  - apply (proj2 (proj2 (getDomainAndSubdomain_tokens "example.com"))). reflexivity.
Defined.

(** C2, as the specification states it, fails on a two-label domain: the
    rejoined result of ["example.com"] starts with a separator. *)
Lemma rejoin_two_labels_differs :
  ~ (forall domain, 1 <= Str.count_dots domain ->
       exists p, getDomainAndSubdomain domain = Return p /\ spec_rejoin p = domain).
Proof.
  intros H. destruct (H "example.com") as (p & Hp & Hr); [simpl; lia |].
  vm_compute in Hp. inversion Hp; subst p. vm_compute in Hr. discriminate.
Qed.

(** C2, amended. With at least two separators, rejoining the result as
    [subdomain + "." + parentDomain] without the trailing separator gives the
    input back; with exactly one separator the parent domain alone is the
    input and the subdomain is empty. *)
Theorem rejoin_reconstructs (domain : string) :
  (2 <= Str.count_dots domain ->
   exists p, getDomainAndSubdomain domain = Return p /\ spec_rejoin p = domain)
  /\ (Str.count_dots domain = 1 ->
      exists p, getDomainAndSubdomain domain = Return p /\
                subdomain p = "" /\ parentDomain p = domain).
Proof.
  pose proof (split_cases domain) as C. split; intros H.
  - destruct (Str.count_dots domain) as [|[|n]]; [lia | lia |].
    destruct C as (first & rest & E & Hlen & R).
    eexists; split; [exact R |].
    unfold spec_rejoin; simpl.
    rewrite <- !append_assoc, strip_trailing_dot_app, append_assoc.
    rewrite <- (join_split domain), E.
    destruct rest as [|r rest]; [simpl in Hlen; lia | done].
  - rewrite H in C. eexists; split; [exact C | done].
Qed.

Lemma rejoin_reconstructs_witness :
  (exists p, getDomainAndSubdomain "www.example.com" = Return p /\
             spec_rejoin p = "www.example.com")
  /\ (exists p, getDomainAndSubdomain "example.com" = Return p /\
                subdomain p = "" /\ parentDomain p = "example.com").
Proof.
  split.
  - apply (proj1 (rejoin_reconstructs "www.example.com")). simpl. lia.
  - apply (proj2 (rejoin_reconstructs "example.com")). reflexivity.
Defined.

(** C3. [getDomainAndSubdomain] throws exactly when the input has no
    separator, and returns for every input with at least one. Being a function
    of its argument alone, it gives equal results on equal inputs. *)
Theorem getDomainAndSubdomain_fails_iff (domain : string) :
  (getDomainAndSubdomain domain = Throw (Error ("No TLD found on " +:+ domain))
   <-> Str.count_dots domain = 0)
  /\ ((exists e, getDomainAndSubdomain domain = Throw e) <-> Str.count_dots domain = 0)
  /\ ((exists p, getDomainAndSubdomain domain = Return p) <-> 1 <= Str.count_dots domain).
Proof.
  pose proof (split_cases domain) as C.
  destruct (Str.count_dots domain) as [|[|n]].
  - rewrite C. repeat split; eauto; try lia.
    intros [p Hp]. discriminate.
  - rewrite C. repeat split; eauto; try lia; try discriminate.
    intros [e He]. discriminate.
  - destruct C as (first & rest & _ & _ & R). rewrite R.
    repeat split; eauto; try lia; try discriminate.
    intros [e He]. discriminate.
Qed.

(** C4, as the specification states it, fails on a two-label domain: the
    parent domain of ["example.com"] has no trailing separator. *)
Lemma parent_two_labels_not_canonical :
  ~ (forall domain p, getDomainAndSubdomain domain = Return p ->
       Str.ends_with_dot (parentDomain p) = true).
Proof.
  intros H.
  specialize (H "example.com" {| subdomain := ""; parentDomain := "example.com" |} eq_refl).
  vm_compute in H. discriminate.
Qed.

(** C4, amended. When the input has at least two separators the parent domain
    of the result ends with the separator; when it has exactly one, the parent
    domain is the input unchanged. *)
Theorem parentDomain_canonical (domain : string) (p : DomainParts) :
  getDomainAndSubdomain domain = Return p ->
  (2 <= Str.count_dots domain -> Str.ends_with_dot (parentDomain p) = true)
  /\ (Str.count_dots domain = 1 -> parentDomain p = domain).
Proof.
  intros R. pose proof (split_cases domain) as C. split; intros H.
  - destruct (Str.count_dots domain) as [|[|n]]; [lia | lia |].
    destruct C as (first & rest & _ & _ & R'). rewrite R' in R.
    inversion R; subst p; simpl. apply ends_with_dot_app.
  - rewrite H in C. rewrite C in R. by inversion R.
Qed.

Lemma parentDomain_canonical_witness :
  Str.ends_with_dot (parentDomain {| subdomain := "www"; parentDomain := "example.com." |})
  = true.
Proof.
  apply (proj1 (parentDomain_canonical "www.example.com"
                  {| subdomain := "www"; parentDomain := "example.com." |} eq_refl)).
  simpl. lia.
Defined.

(** ** index.js: the host of the API URL *)

Example replace_https :
  UrlRegex.replace "https://abc.execute-api.eu-west-1.amazonaws.com/stage/"
  = "abc.execute-api.eu-west-1.amazonaws.com".
Proof. reflexivity. Qed.

Example replace_http_no_path : UrlRegex.replace "http://example.org" = "example.org".
Proof. reflexivity. Qed.

Example replace_other_scheme : UrlRegex.replace "ftp://example.org/x" = "ftp://example.org/x".
Proof. reflexivity. Qed.

(** The dot of the regular expression stops at LF and at U+2028 alike: what
    follows from there is kept after the host. *)
Example replace_stops_at_line_feed :
  UrlRegex.replace ("https://host/a" +:+ String "010"%char "b")
  = "host" +:+ String "010"%char "b".
Proof. reflexivity. Qed.

Example replace_stops_at_line_separator :
  UrlRegex.replace ("https://host/a" +:+ line_separator +:+ "b")
  = "host" +:+ line_separator +:+ "b".
Proof. reflexivity. Qed.

Example replace_stops_at_paragraph_separator :
  UrlRegex.replace ("https://host/a" +:+ paragraph_separator +:+ "b")
  = "host" +:+ paragraph_separator +:+ "b".
Proof. reflexivity. Qed.

Example separator_is_not_single_line :
  single_line ("a" +:+ line_separator +:+ "b") = false
  /\ single_line ("a" +:+ paragraph_separator +:+ "b") = false
  /\ single_line "stage/v1?x=1" = true.
Proof. repeat split. Qed.

(** ** index.js: running the constructor *)

(** Evaluates the monadic code of index.js on a known state. *)
Ltac run_code :=
  cbv beta iota zeta delta
    [constructor createAliasRecord createCloudFrontDistribution
     provisionCertificate createLogsBucket bucket_object bind lift new ret
     getZone get_this set_this registerOutputs start
     registered invokes outputs this app type_of].

Tactic Notation "run_code" "in" hyp(H) :=
  cbv beta iota zeta delta
    [constructor createAliasRecord createCloudFrontDistribution
     provisionCertificate createLogsBucket bucket_object bind lift new ret
     getZone get_this set_this registerOutputs start
     registered invokes outputs this app type_of] in H.

Section ConstructorRuns.

Variable aws : Cloud.
Variables name targetDomain : string.
Variable contentBucket : Bucket.
Variable apiGateway : ApiGateway.
Variable logsBucket : option Bucket.

(** The constructor throws what the domain splitter throws, and returns
    otherwise. *)
Lemma constructor_completion :
  (constructor aws name targetDomain contentBucket apiGateway logsBucket start).1
  = match getDomainAndSubdomain targetDomain with
    | Return _ => Return tt
    | Throw e => Throw e
    end.
Proof.
  destruct (getDomainAndSubdomain targetDomain) as [p|e] eqn:Hp;
    destruct logsBucket; run_code; rewrite Hp; run_code; reflexivity.
Qed.

(** X17. The constructor returns exactly when the target domain contains at
    least one separator; the contents of the buckets, of the API gateway and
    the answers of the provider play no part in that. *)
Lemma constructor_returns_iff :
  (exists st, constructor aws name targetDomain contentBucket apiGateway
                logsBucket start = (Return tt, st))
  <-> 1 <= Str.count_dots targetDomain.
Proof.
  pose proof constructor_completion as C.
  rewrite <- split_returns_iff. split.
  - intros [st Hst]. rewrite Hst in C. simpl in C.
    destruct (getDomainAndSubdomain targetDomain); [eauto | discriminate].
  - intros [p Hp]. rewrite Hp in C.
    destruct (constructor _ _ _ _ _ _ _) as [c st]. simpl in C. subst c. eauto.
Qed.

Lemma constructor_returned st :
  constructor aws name targetDomain contentBucket apiGateway logsBucket start
  = (Return tt, st) ->
  exists p, getDomainAndSubdomain targetDomain = Return p.
Proof.
  intros Hst. pose proof constructor_completion as C. rewrite Hst in C.
  destruct (getDomainAndSubdomain targetDomain); [eauto | discriminate].
Qed.

End ConstructorRuns.

(** Runs the constructor in hypothesis [H], which says that it returned. *)
Ltac run_returned H p Hp :=
  destruct (constructor_returned _ _ _ _ _ _ _ H) as [p Hp];
  run_code in H; rewrite Hp in H; run_code in H;
  injection H as <-.

Example demo_run_returns : demo_run.1 = Return tt.
Proof. reflexivity. Qed.

(** ** index.js: the logs bucket *)

Example demo_run_buckets :
  buckets demo_run.2
  = [("site-front-logs",
      {| BucketArgs.bucket := "www.example.com-logs"; BucketArgs.acl := "private" |})].
Proof. reflexivity. Qed.

(** C5, as the specification states it, fails: for the component named
    ["site"] on ["www.example.com"] with no logs bucket given, no bucket of
    the run is called ["site-logs"]. *)
Lemma logs_bucket_not_named_after_component :
  ~ (exists logical b, (logical, b) ∈ buckets demo_run.2 /\
                       BucketArgs.bucket b = "site" +:+ "-logs").
Proof.
  intros (logical & b & Hin & Hb).
  change (buckets demo_run.2) with
    [("site-front-logs",
      {| BucketArgs.bucket := "www.example.com-logs"; BucketArgs.acl := "private" |})]
    in Hin.
  apply list_elem_of_singleton in Hin. injection Hin as _ ->. discriminate Hb.
Qed.

(** C5, amended. When the caller omits the logs bucket, the constructor
    creates exactly one bucket: it is private, its bucket name is the target
    domain followed by ["-logs"], and its logical name is the component name
    followed by ["-front-logs"]. *)
Theorem logs_bucket_default (aws : Cloud) (name targetDomain : string)
    (contentBucket : Bucket) (apiGateway : ApiGateway) :
  buckets (constructor aws name targetDomain contentBucket apiGateway None start).2
  = [(name +:+ "-front-logs",
      {| BucketArgs.bucket := targetDomain +:+ "-logs"; BucketArgs.acl := "private" |})].
Proof.
  destruct (getDomainAndSubdomain targetDomain) as [p|e] eqn:Hp;
    run_code; rewrite Hp; run_code; reflexivity.
Qed.

(** A logs bucket given by the caller is used as it is: none is created. *)
Lemma logs_bucket_supplied (aws : Cloud) (name targetDomain : string)
    (contentBucket : Bucket) (apiGateway : ApiGateway) (logsBucket : Bucket) :
  buckets (constructor aws name targetDomain contentBucket apiGateway
             (Some logsBucket) start).2 = [].
Proof.
  destruct (getDomainAndSubdomain targetDomain) as [p|e] eqn:Hp;
    run_code; rewrite Hp; run_code; reflexivity.
Qed.

(** ** index.js: the outputs of the component *)

(** C6. In every run that returns, [registerOutputs] receives the three keys
    [certificateArn], [aliasRecord] and [cloudFrontDistribution]; the
    certificate ARN and the distribution registered are the ones the instance
    keeps, but the registered [aliasRecord] is [undefined]: [this.aliasRecord]
    is read before it is assigned the alias record of the run. *)
Theorem registered_aliasRecord_undefined (aws : Cloud) (name targetDomain : string)
    (contentBucket : Bucket) (apiGateway : ApiGateway) (logsBucket : option Bucket)
    (st : Run) :
  constructor aws name targetDomain contentBucket apiGateway logsBucket start
  = (Return tt, st) ->
  exists registeredOutputs : gmap string Value,
    outputs st = Some registeredOutputs
    /\ dom registeredOutputs
       = ({["certificateArn"; "aliasRecord"; "cloudFrontDistribution"]} : gset string)
    /\ registeredOutputs !! "aliasRecord" = Some VUndefined
    /\ this st !! "aliasRecord" = Some (VResource (alias_record_of name))
    /\ registeredOutputs !! "certificateArn" = this st !! "certificateArn"
    /\ registeredOutputs !! "cloudFrontDistribution" = this st !! "cloudFrontDistribution".
Proof.
  intros H. destruct logsBucket; run_returned H p Hp.
  all: eexists; split; [reflexivity |].
  all: rewrite lookup_empty; cbn [default].
  all: repeat split.
  all: try (rewrite !dom_insert_L, dom_empty_L; set_solver).
  all: by simplify_map_eq.
Qed.

Lemma registered_aliasRecord_undefined_witness :
  exists registeredOutputs : gmap string Value,
    outputs demo_run.2 = Some registeredOutputs
    /\ dom registeredOutputs
       = ({["certificateArn"; "aliasRecord"; "cloudFrontDistribution"]} : gset string)
    /\ registeredOutputs !! "aliasRecord" = Some VUndefined
    /\ this demo_run.2 !! "aliasRecord" = Some (VResource (alias_record_of "site"))
    /\ registeredOutputs !! "certificateArn" = this demo_run.2 !! "certificateArn"
    /\ registeredOutputs !! "cloudFrontDistribution"
       = this demo_run.2 !! "cloudFrontDistribution".
Proof.
  refine (registered_aliasRecord_undefined demo_cloud "site" "www.example.com"
            (demo_bucket "content") demo_api None demo_run.2 _).
  vm_compute. reflexivity.
Defined.

(** ** index.js: zone lookups *)

(** C7, as the specification states it, fails: the run for
    ["www.example.com"] looks the zone ["example.com."] up twice. *)
Lemma zone_lookup_issued_twice :
  ~ (zone_lookups "example.com." demo_run.2 <= 1).
Proof. vm_compute. lia. Qed.

(** C7, amended. In every run that returns, the certificate validation record
    and the alias record get the same zone identifier, the one the provider
    answers for the parent domain of the target domain; each of the two
    resolutions issues its own lookup of that name, so the run makes exactly
    two lookups and nothing is memoized. *)
Theorem zone_resolutions_agree (aws : Cloud) (name targetDomain : string)
    (contentBucket : Bucket) (apiGateway : ApiGateway) (logsBucket : option Bucket)
    (st : Run) :
  constructor aws name targetDomain contentBucket apiGateway logsBucket start
  = (Return tt, st) ->
  exists p validation alias,
    getDomainAndSubdomain targetDomain = Return p
    /\ invokes st = [GetZone (parentDomain p); GetZone (parentDomain p)]
    /\ zone_lookups (parentDomain p) st = 2
    /\ dns_records st = [(name +:+ "-validation", validation); (name, alias)]
    /\ RecordArgs.zoneId validation
       = OfPromise (Promise.then_ zoneId (lookupZone aws (parentDomain p)))
    /\ RecordArgs.zoneId alias = RecordArgs.zoneId validation.
Proof.
  intros H. destruct logsBucket; run_returned H p Hp.
  all: exists p; do 2 eexists.
  all: split; [exact Hp |].
  all: split; [reflexivity |].
  all: split; [| split; [reflexivity | split; reflexivity]].
  all: unfold zone_lookups; cbn [invokes].
  all: by rewrite !filter_cons_True, filter_nil.
Qed.

Lemma zone_resolutions_agree_witness :
  exists p validation alias,
    getDomainAndSubdomain "www.example.com" = Return p
    /\ invokes demo_run.2 = [GetZone (parentDomain p); GetZone (parentDomain p)]
    /\ zone_lookups (parentDomain p) demo_run.2 = 2
    /\ dns_records demo_run.2 = [("site" +:+ "-validation", validation); ("site", alias)]
    /\ RecordArgs.zoneId validation
       = OfPromise (Promise.then_ zoneId (lookupZone demo_cloud (parentDomain p)))
    /\ RecordArgs.zoneId alias = RecordArgs.zoneId validation.
Proof.
  refine (zone_resolutions_agree demo_cloud "site" "www.example.com"
            (demo_bucket "content") demo_api None demo_run.2 _).
  vm_compute. reflexivity.
Defined.

(** ** index.js: creation order *)

Section CreationOrder.

Variable regs : list Registration.

Lemma deps_of_lookup (k : nat) (reg : Registration) (r d : ResourceRef) :
  regs !! k = Some reg ->
  ref reg = r ->
  In d (dependencies reg) ->
  In d (map ref regs) ->
  d ∈ deps_of regs r.
Proof.
  intros Hk Hr Hd Hin. unfold deps_of.
  apply list_elem_of_filter. split; [by apply list_elem_of_In |].
  apply list_elem_of_In, in_concat. exists (dependencies reg). split; [| done].
  apply in_map, list_elem_of_In, list_elem_of_filter. split; [done |].
  by eapply list_elem_of_lookup_2.
Qed.

Lemma creation_order_from_deps (sched : list ResourceRef) :
  forall (created : list ResourceRef) (j : nat) (r d : ResourceRef),
    creation_order_from regs created sched = true ->
    sched !! j = Some r ->
    d ∈ deps_of regs r ->
    d ∈ created \/ exists i, i < j /\ sched !! i = Some d.
Proof.
  induction sched as [|x sched IH]; intros created j r d Hord Hj Hd; [done |].
  cbn [creation_order_from] in Hord. apply andb_prop in Hord as [Hx Hrest].
  destruct j as [|j]; simpl in Hj.
  - injection Hj as ->. left.
    rewrite forallb_forall in Hx.
    apply list_elem_of_In, Hx in Hd. by apply bool_decide_eq_true in Hd.
  - destruct (IH (x :: created) j r d Hrest Hj Hd) as [Hin | (i & Hi & Hs)].
    + apply elem_of_cons in Hin as [-> | Hin]; [| by left].
      right. exists 0. split; [lia | done].
    + right. exists (S i). split; [lia | done].
Qed.

(** In a creation order a resource comes after each of its dependencies. *)
Lemma creation_order_precedes (sched : list ResourceRef) (r d : ResourceRef) :
  creation_order regs sched = true ->
  d ∈ deps_of regs r ->
  precedes d r sched.
Proof.
  intros Hord Hd j Hj.
  destruct (creation_order_from_deps sched [] j r d Hord Hj Hd) as [Hin | H]; [| done].
  by apply not_elem_of_nil in Hin.
Qed.

End CreationOrder.

(** Proves a disjunction of equations one of which holds by computation. *)
Ltac among := solve [ reflexivity | left; among | right; among ].

Ltac spread := unfold dependencies; cbn; rewrite ?in_app_iff; cbn.

(** Finds the registration that makes one resource depend on another. *)
Ltac find_dependency :=
  let rec go k :=
    first [ solve [ eapply (deps_of_lookup _ k);
                    [ reflexivity | reflexivity | spread; among | spread; among ] ]
          | lazymatch k with
            | 8 => fail
            | _ => go constr:(S k)
            end ] in
  go constr:(0).

Example demo_schedule_is_creation_order :
  creation_order (registered demo_run.2) demo_schedule = true.
Proof. vm_compute. reflexivity. Qed.

Example demo_schedule_positions :
  demo_schedule !! 4 = Some (validation_record_of "site")
  /\ demo_schedule !! 5 = Some (certificate_validation_of "site")
  /\ demo_schedule !! 6 = Some (distribution_of "site").
Proof. repeat split. Qed.

(** Creating the validation before its DNS record is not a creation order. *)
Example validation_first_is_no_creation_order :
  creation_order (registered demo_run.2)
    [ {| rtype := AcmCertificate; rname := "site-certificate" |};
      certificate_validation_of "site"; validation_record_of "site" ] = false.
Proof. vm_compute. reflexivity. Qed.

(** C8. In every run that returns, the certificate validation takes the FQDN
    of the validation record as an input and the distribution takes the
    certificate ARN of the validation, which is also the ARN the constructor
    exposes. Hence in every order in which the engine may create the
    resources, each creation of the validation comes strictly after a creation
    of the validation record, and each creation of the distribution strictly
    after a creation of the validation. *)
Theorem validation_record_precedes_validation (aws : Cloud) (name targetDomain : string)
    (contentBucket : Bucket) (apiGateway : ApiGateway) (logsBucket : option Bucket)
    (st : Run) (sched : list ResourceRef) :
  constructor aws name targetDomain contentBucket apiGateway logsBucket start
  = (Return tt, st) ->
  creation_order (registered st) sched = true ->
  precedes (validation_record_of name) (certificate_validation_of name) sched
  /\ precedes (certificate_validation_of name) (distribution_of name) sched
  /\ this st !! "certificateArn"
     = Some (VOutput (prop aws (certificate_validation_of name) "certificateArn")).
Proof.
  intros H Hord. destruct logsBucket; run_returned H p Hp.
  all: cbn [registered] in Hord.
  all: split; [| split].
  all: try (apply (creation_order_precedes _ _ _ _ Hord); find_dependency).
  all: cbn [this]; by simplify_map_eq.
Qed.

Lemma validation_record_precedes_validation_witness :
  precedes (validation_record_of "site") (certificate_validation_of "site") demo_schedule
  /\ precedes (certificate_validation_of "site") (distribution_of "site") demo_schedule
  /\ this demo_run.2 !! "certificateArn"
     = Some (VOutput (prop demo_cloud (certificate_validation_of "site") "certificateArn")).
Proof.
  refine (validation_record_precedes_validation demo_cloud "site" "www.example.com"
            (demo_bucket "content") demo_api None demo_run.2 demo_schedule _ _).
  - vm_compute. reflexivity.
  - vm_compute. reflexivity.
Defined.

(** ** index.js: the error pages of the distribution *)

(** C9. The distribution that [createCloudFrontDistribution] registers has
    exactly two custom error responses: an upstream 404 is answered with
    status 404 and the page [/404.html], an upstream 403 with status 200 and
    the page [/index.html]; no other status is remapped. *)
Theorem distribution_error_remapping (self : ResourceRef)
    (name targetDomain : string) (contentBucket : Bucket) (apiGateway : ApiGateway)
    (certificateArn : Output.t string) (logsBucket : Bucket) (st : Run) :
  exists d : DistributionArgs.t,
    createCloudFrontDistribution self name targetDomain contentBucket apiGateway
      certificateArn logsBucket st
    = (Return (distribution_of name),
       {| registered := registered st
            ++ [{| ref := distribution_of name; args := NewDistribution d;
                   opts := {| parent := Some self; provider := None |} |}];
          invokes := invokes st; outputs := outputs st; this := this st |})
    /\ DistributionArgs.customErrorResponses d
       = [{| CustomErrorResponse.errorCode := 404;
             CustomErrorResponse.responseCode := 404;
             CustomErrorResponse.responsePagePath := "/404.html" |};
          {| CustomErrorResponse.errorCode := 403;
             CustomErrorResponse.responseCode := 200;
             CustomErrorResponse.responsePagePath := "/index.html" |}]
    /\ error_remap d 404 = Some (404%Z, "/404.html")
    /\ error_remap d 403 = Some (200%Z, "/index.html")
    /\ (forall code : Z, error_remap d code <> None -> code = 404%Z \/ code = 403%Z).
Proof.
  eexists. split; [reflexivity |].
  split; [reflexivity |]. split; [reflexivity |]. split; [reflexivity |].
  intros code Hremap.
  destruct (Z.eqb_spec 404 code) as [|N404]; [by left |].
  destruct (Z.eqb_spec 403 code) as [|N403]; [by right |].
  exfalso. apply Hremap.
  apply Z.eqb_neq in N404, N403. unfold error_remap.
  cbn [List.find DistributionArgs.customErrorResponses CustomErrorResponse.errorCode].
  by rewrite N404, N403.
Qed.

(** ** index.js: the alias record of an apex domain *)

(** C10. For a target domain with exactly one separator, [createAliasRecord]
    returns: it looks up the zone of the whole target domain and registers an
    A record whose name is the empty string, the apex of that zone. *)
Theorem apex_alias_record_name (aws : Cloud) (self : ResourceRef)
    (name targetDomain : string) (distribution : ResourceRef) (st : Run) :
  Str.count_dots targetDomain = 1 ->
  exists r : RecordArgs.t,
    createAliasRecord aws self name targetDomain distribution st
    = (Return (alias_record_of name),
       {| registered := registered st
            ++ [{| ref := alias_record_of name; args := NewRecord r;
                   opts := {| parent := Some self; provider := None |} |}];
          invokes := invokes st ++ [GetZone targetDomain];
          outputs := outputs st; this := this st |})
    /\ RecordArgs.name r = Plain ""
    /\ RecordArgs.zoneId r
       = OfPromise (Promise.then_ zoneId (lookupZone aws targetDomain))
    /\ RecordArgs.type r = Plain "A".
Proof.
  intros H. pose proof (split_cases targetDomain) as C. rewrite H in C.
  unfold createAliasRecord, bind, lift, getZone, new. rewrite C.
  eexists. split; [reflexivity |]. repeat split.
Qed.

(** The same in a whole run: the alias record of ["example.com"] is the apex. *)
Example apex_run_alias_record :
  RecordArgs.name <$> (snd <$> last (dns_records
    (constructor demo_cloud "site" "example.com" (demo_bucket "content")
       demo_api None start).2))
  = Some (Plain "").
Proof. reflexivity. Qed.

Lemma apex_alias_record_name_witness :
  exists r : RecordArgs.t,
    createAliasRecord demo_cloud (component_of "site") "site" "example.com"
      (distribution_of "site") start
    = (Return (alias_record_of "site"),
       {| registered := registered start
            ++ [{| ref := alias_record_of "site"; args := NewRecord r;
                   opts := {| parent := Some (component_of "site");
                              provider := None |} |}];
          invokes := invokes start ++ [GetZone "example.com"];
          outputs := outputs start; this := this start |})
    /\ RecordArgs.name r = Plain ""
    /\ RecordArgs.zoneId r
       = OfPromise (Promise.then_ zoneId (lookupZone demo_cloud "example.com"))
    /\ RecordArgs.type r = Plain "A".
Proof.
  apply (apex_alias_record_name demo_cloud (component_of "site") "site"
           "example.com" (distribution_of "site") start).
  reflexivity.
Defined.

(** * Further properties of the code *)

(** ** helpers: the result in terms of the input string *)

Section TokenFacts.

Lemma count_dots_app (a b : string) :
  Str.count_dots (a +:+ b) = Str.count_dots a + Str.count_dots b.
Proof.
  induction a as [|c a IH]; [done |].
  rewrite append_cons. cbn [Str.count_dots]. rewrite IH. lia.
Qed.

Lemma split_one_token (tok : string) :
  Str.dot_free tok = true -> Str.split tok = [tok].
Proof.
  induction tok as [|c tok IH]; [done |].
  cbn [Str.dot_free Str.split]. intros [Hc Ht]%andb_prop.
  apply negb_true_iff in Hc. by rewrite Hc, (IH Ht).
Qed.

(** Splitting the join of separator-free tokens gives the tokens back. *)
Lemma split_join_tokens (toks : list string) :
  toks <> [] ->
  Forall (fun tok => Str.dot_free tok = true) toks ->
  Str.split (Str.join toks) = toks.
Proof.
  induction toks as [|tok toks IH]; [done |]. intros _ F.
  inversion F as [|? ? Ht Hts]; subst.
  destruct toks as [|u toks].
  - by apply split_one_token.
  - change (Str.join (tok :: u :: toks)) with (tok +:+ "." +:+ Str.join (u :: toks)).
    rewrite (split_app _ _ Ht). by rewrite IH.
Qed.

Lemma split_label_many (label rest : string) :
  Str.dot_free label = true -> 1 <= Str.count_dots rest ->
  getDomainAndSubdomain (label +:+ "." +:+ rest)
  = Return {| subdomain := label; parentDomain := rest +:+ "." |}.
Proof.
  intros Hl Hr.
  pose proof (split_app label rest Hl) as E.
  pose proof (split_length rest) as L.
  destruct (split_many (label +:+ "." +:+ rest)) as (first & more & E' & _ & R).
  { rewrite E. simpl. lia. }
  rewrite E in E'. injection E' as <- <-.
  by rewrite R, join_split.
Qed.

Lemma split_label_two (label rest : string) :
  Str.dot_free label = true -> Str.count_dots rest = 0 ->
  getDomainAndSubdomain (label +:+ "." +:+ rest)
  = Return {| subdomain := ""; parentDomain := label +:+ "." +:+ rest |}.
Proof.
  intros Hl Hr. apply split_two.
  rewrite (split_app label rest Hl). simpl. rewrite split_length. lia.
Qed.

End TokenFacts.

(** X1. When the input is a separator-free label, a separator and a rest that
    contains a separator, the label is the subdomain and the rest followed by
    a separator is the parent domain; when the rest contains no separator the
    subdomain is empty and the parent domain is the whole input. *)
Theorem getDomainAndSubdomain_label_rest (label rest : string) :
  Str.dot_free label = true ->
  (1 <= Str.count_dots rest ->
   getDomainAndSubdomain (label +:+ "." +:+ rest)
   = Return {| subdomain := label; parentDomain := rest +:+ "." |})
  /\ (Str.count_dots rest = 0 ->
      getDomainAndSubdomain (label +:+ "." +:+ rest)
      = Return {| subdomain := ""; parentDomain := label +:+ "." +:+ rest |}).
Proof.
  intros Hl. split; intros Hr.
  - by apply split_label_many.
  - by apply split_label_two.
Qed.

Lemma getDomainAndSubdomain_label_rest_witness :
  getDomainAndSubdomain ("shop" +:+ "." +:+ "example.co.uk")
  = Return {| subdomain := "shop"; parentDomain := "example.co.uk" +:+ "." |}
  /\ getDomainAndSubdomain ("example" +:+ "." +:+ "com")
     = Return {| subdomain := ""; parentDomain := "example" +:+ "." +:+ "com" |}.
Proof.
  split.
  - apply (proj1 (getDomainAndSubdomain_label_rest "shop" "example.co.uk" eq_refl)).
    simpl. lia.
  - apply (proj2 (getDomainAndSubdomain_label_rest "example" "com" eq_refl)).
    reflexivity.
Defined.

(** X2. The subdomain of a result never contains a separator, and the result
    has as many separators in its parent domain as the input has. *)
Theorem subdomain_is_one_label (domain : string) (p : DomainParts) :
  getDomainAndSubdomain domain = Return p ->
  Str.dot_free (subdomain p) = true
  /\ Str.count_dots (parentDomain p) = Str.count_dots domain.
Proof.
  intros R. pose proof (split_cases domain) as C.
  pose proof (split_dot_free domain) as F.
  pose proof (split_length domain) as L.
  destruct (Str.count_dots domain) as [|[|n]] eqn:N.
  - rewrite C in R. discriminate.
  - rewrite C in R. injection R as <-. by rewrite <- N.
  - destruct C as (first & rest & E & _ & R'). rewrite R' in R. injection R as <-.
    rewrite E in F, L. inversion F as [|? ? Hf Hr]; subst. split; [done |].
    cbn [parentDomain]. rewrite count_dots_app.
    pose proof (split_length (Str.join rest)) as L'.
    rewrite split_join_tokens in L'; [| by destruct rest | done].
    simpl in L |- *. lia.
Qed.

Lemma subdomain_is_one_label_witness :
  Str.dot_free (subdomain {| subdomain := "a"; parentDomain := "b.example.com." |}) = true
  /\ Str.count_dots (parentDomain {| subdomain := "a"; parentDomain := "b.example.com." |})
     = Str.count_dots "a.b.example.com".
Proof.
  apply (subdomain_is_one_label "a.b.example.com"
           {| subdomain := "a"; parentDomain := "b.example.com." |}).
  reflexivity.
Defined.

(** ** index.js: the host of the API URL, in general *)

Section UrlFacts.

Lemma after_prefix_app (p s : string) : UrlRegex.after_prefix p (p +:+ s) = Some s.
Proof.
  induction p as [|c p IH]; [by destruct s |].
  rewrite append_cons. cbn [UrlRegex.after_prefix].
  by rewrite bool_decide_eq_true_2.
Qed.

Lemma no_slash_host (host : string) :
  slash_free host = true -> UrlRegex.no_slash host = (host, "").
Proof.
  induction host as [|c host IH]; [done |].
  cbn [slash_free UrlRegex.no_slash]. intros [Hc Hh]%andb_prop.
  apply negb_true_iff in Hc. by rewrite Hc, (IH Hh).
Qed.

Lemma no_slash_host_path (host rest : string) :
  slash_free host = true ->
  UrlRegex.no_slash (host +:+ "/" +:+ rest) = (host, "/" +:+ rest).
Proof.
  induction host as [|c host IH]; [done |].
  rewrite append_cons. cbn [slash_free UrlRegex.no_slash].
  intros [Hc Hh]%andb_prop. apply negb_true_iff in Hc. by rewrite Hc, (IH Hh).
Qed.

(** A line terminator starts with one of three bytes, none of which is a
    later byte of U+2028 or U+2029. *)
Lemma line_terminator_head (c : ascii) (s : string) :
  UrlRegex.line_terminator (String c s) = true ->
  c <> "128"%char /\ c <> "168"%char /\ c <> "169"%char.
Proof.
  intros H. repeat split; intros ->; vm_compute in H; discriminate.
Qed.

(** What follows a line does not make a line terminator start inside it. *)
Lemma line_terminator_app (c : ascii) (line rest : string) :
  UrlRegex.line_terminator (String c line) = false ->
  at_line_end rest = true ->
  UrlRegex.line_terminator (String c (line +:+ rest)) = false.
Proof.
  intros Hl Hr. destruct line as [|c1 [|c2 line]].
  - change ("" +:+ rest) with rest.
    cbn [UrlRegex.line_terminator] in Hl |- *.
    apply orb_false_iff in Hl as [-> _]. cbn [orb].
    destruct rest as [|r1 [|r2 rest]]; [by rewrite andb_false_r .. |].
    apply line_terminator_head in Hr as (N & _ & _).
    by rewrite (bool_decide_eq_false_2 _ N), andb_false_r.
  - change (String c1 "" +:+ rest) with (String c1 rest).
    cbn [UrlRegex.line_terminator] in Hl |- *.
    apply orb_false_iff in Hl as [-> _]. cbn [orb].
    destruct rest as [|r1 rest]; [by rewrite andb_false_r |].
    apply line_terminator_head in Hr as (_ & N1 & N2).
    by rewrite (bool_decide_eq_false_2 _ N1), (bool_decide_eq_false_2 _ N2),
         !andb_false_r.
  - exact Hl.
Qed.

Lemma after_line_app (line rest : string) :
  single_line line = true -> at_line_end rest = true ->
  UrlRegex.after_line (line +:+ rest) = rest.
Proof.
  intros Hl Hr. induction line as [|c line IH].
  - destruct rest as [|c rest]; [done |].
    change ("" +:+ String c rest) with (String c rest).
    cbn [UrlRegex.after_line]. cbn [at_line_end] in Hr. by rewrite Hr.
  - rewrite append_cons. cbn [single_line] in Hl.
    apply andb_prop in Hl as [Hc Hl]. apply negb_true_iff in Hc.
    cbn [UrlRegex.after_line].
    rewrite (line_terminator_app _ _ _ Hc Hr). by apply IH.
Qed.

Lemma replace_scheme_host (scheme host path rest : string) :
  scheme = "https://" \/ scheme = "http://" ->
  slash_free host = true ->
  single_line path = true ->
  at_line_end rest = true ->
  UrlRegex.replace (scheme +:+ host +:+ "/" +:+ path +:+ rest) = host +:+ rest
  /\ UrlRegex.replace (scheme +:+ host) = host.
Proof.
  intros Hs Hh Hp Hr. unfold UrlRegex.replace.
  assert (forall s, match UrlRegex.after_prefix "https://" (scheme +:+ s) with
                    | Some r => Some r
                    | None => UrlRegex.after_prefix "http://" (scheme +:+ s)
                    end = Some s) as E.
  { intros s. destruct Hs as [-> | ->]; by rewrite after_prefix_app. }
  split.
  - rewrite E, (no_slash_host_path _ _ Hh).
    change ("/" +:+ path +:+ rest) with (("/" +:+ path) +:+ rest).
    rewrite after_line_app; [done | | done].
    change ("/" +:+ path) with (String "/" path). cbn [single_line]. by rewrite Hp.
  - rewrite E, (no_slash_host _ Hh). cbn [UrlRegex.after_line].
    clear. induction host as [|c host IH]; [done |]. rewrite append_cons. by f_equal.
Qed.

End UrlFacts.

(** X3. For a URL made of [http://] or [https://], a host without a slash,
    a slash and a path on the same line, the replacement gives the bare host;
    whatever follows from the first line terminator on is kept after the
    host. A URL that is just the scheme and the host gives the host. *)
Theorem replace_gives_host (scheme host path rest : string) :
  scheme = "https://" \/ scheme = "http://" ->
  slash_free host = true ->
  single_line path = true ->
  at_line_end rest = true ->
  UrlRegex.replace (scheme +:+ host +:+ "/" +:+ path +:+ rest) = host +:+ rest
  /\ UrlRegex.replace (scheme +:+ host) = host.
Proof.
  apply replace_scheme_host.
Qed.

Lemma replace_gives_host_witness :
  UrlRegex.replace ("https://" +:+ "abc.execute-api.eu-west-1.amazonaws.com"
                    +:+ "/" +:+ "stage/" +:+ "")
  = "abc.execute-api.eu-west-1.amazonaws.com" +:+ ""
  /\ UrlRegex.replace ("https://" +:+ "abc.execute-api.eu-west-1.amazonaws.com")
     = "abc.execute-api.eu-west-1.amazonaws.com".
Proof.
  apply (replace_gives_host "https://" "abc.execute-api.eu-west-1.amazonaws.com"
           "stage/" ""); [by left | reflexivity | reflexivity | reflexivity].
Defined.

(** ** index.js: a target domain without a separator *)

(** X4. When the target domain has no separator the constructor throws the
    error of the domain splitter, after it has registered the component, the
    logs bucket (when none was given), the provider and the certificate, and
    before any zone lookup: no DNS record, validation or distribution is
    registered, [registerOutputs] is not called and no property is set. *)
Theorem constructor_throws_after_certificate (aws : Cloud) (name targetDomain : string)
    (contentBucket : Bucket) (apiGateway : ApiGateway) (logsBucket : option Bucket) :
  Str.count_dots targetDomain = 0 ->
  exists st,
    constructor aws name targetDomain contentBucket apiGateway logsBucket start
    = (Throw (Error ("No TLD found on " +:+ targetDomain)), st)
    /\ map ref (registered st)
       = component_of name
         :: match logsBucket with
            | None => [logs_bucket_of name]
            | Some _ => []
            end
         ++ [east_provider; certificate_of name]
    /\ invokes st = []
    /\ outputs st = None
    /\ this st = ∅.
Proof.
  intros H. pose proof (split_cases targetDomain) as Hp. rewrite H in Hp.
  destruct logsBucket; run_code; rewrite Hp; run_code;
    eexists; (split; [reflexivity |]); repeat split.
Qed.

Lemma constructor_throws_after_certificate_witness :
  exists st,
    constructor demo_cloud "site" "localhost" (demo_bucket "content") demo_api None start
    = (Throw (Error ("No TLD found on " +:+ "localhost")), st)
    /\ map ref (registered st)
       = component_of "site" :: [logs_bucket_of "site"]
         ++ [east_provider; certificate_of "site"]
    /\ invokes st = []
    /\ outputs st = None
    /\ this st = ∅.
Proof.
  apply (constructor_throws_after_certificate demo_cloud "site" "localhost"
           (demo_bucket "content") demo_api None).
  reflexivity.
Defined.

(** ** index.js: the resources of a run *)

Section ResourceNames.

Lemma append_self (s t : string) : s +:+ t = s -> t = "".
Proof.
  induction s as [|c s IH]; [done |].
  rewrite append_cons. intros [= E]. by apply IH.
Qed.

End ResourceNames.

(** Refutes an equation between two of the resource objects of a run. *)
Ltac refute_same_resource H :=
  first [ discriminate H
        | injection H as H; apply append_self in H; discriminate H ].

Ltac distinct_resources :=
  repeat (apply NoDup_cons; split;
          [ let Hin := fresh "Hin" in
            let Heq := fresh "Heq" in
            intros Hin;
            repeat (apply elem_of_cons in Hin as [Heq | Hin];
                    [ refute_same_resource Heq |]);
            by apply elem_of_nil in Hin
          |]);
  apply NoDup_nil_2.

(** X5. A run that returns registers, in this order, the component, the logs
    bucket (only when none was given), the provider, the certificate, the
    validation record, the certificate validation, the distribution and the
    alias record; no two of them have the same class and logical name. *)
Theorem run_resources (aws : Cloud) (name targetDomain : string)
    (contentBucket : Bucket) (apiGateway : ApiGateway) (logsBucket : option Bucket)
    (st : Run) :
  constructor aws name targetDomain contentBucket apiGateway logsBucket start
  = (Return tt, st) ->
  map ref (registered st)
  = component_of name
    :: match logsBucket with
       | None => [logs_bucket_of name]
       | Some _ => []
       end
    ++ [east_provider; certificate_of name; validation_record_of name;
        certificate_validation_of name; distribution_of name; alias_record_of name]
  /\ NoDup (map ref (registered st)).
Proof.
  intros H. destruct logsBucket; run_returned H p Hp.
  all: split; [reflexivity |].
  all: cbn [registered map ref].
  all: distinct_resources.
Qed.

Lemma run_resources_witness :
  map ref (registered demo_run.2)
  = component_of "site" :: [logs_bucket_of "site"]
    ++ [east_provider; certificate_of "site"; validation_record_of "site";
        certificate_validation_of "site"; distribution_of "site";
        alias_record_of "site"]
  /\ NoDup (map ref (registered demo_run.2)).
Proof.
  refine (run_resources demo_cloud "site" "www.example.com"
            (demo_bucket "content") demo_api None demo_run.2 _).
  vm_compute. reflexivity.
Defined.

(** X6. In a run that returns, every resource except the component itself and
    the provider is registered as a child of the component; the provider is
    configured for the region us-east-1 with the ambient profile, and exactly
    the certificate and the certificate validation are created through it. *)
Theorem resources_owned_by_component (aws : Cloud) (name targetDomain : string)
    (contentBucket : Bucket) (apiGateway : ApiGateway) (logsBucket : option Bucket)
    (st : Run) :
  constructor aws name targetDomain contentBucket apiGateway logsBucket start
  = (Return tt, st) ->
  Forall (fun reg =>
            parent (opts reg)
            = match rtype (ref reg) with
              | ComponentResource _ | AwsProvider => None
              | _ => Some (component_of name)
              end
            /\ provider (opts reg)
               = match rtype (ref reg) with
                 | AcmCertificate | AcmCertificateValidation => Some east_provider
                 | _ => None
                 end
            /\ match args reg with
               | NewProvider a =>
                   ProviderArgs.region a = "us-east-1"
                   /\ ProviderArgs.profile a = config_profile aws
               | _ => True
               end)
         (registered st).
Proof.
  intros H. destruct logsBucket; run_returned H p Hp.
  all: cbn [registered].
  all: repeat (apply Forall_cons; split; [by repeat split |]).
  all: apply Forall_nil_2.
Qed.

Lemma resources_owned_by_component_witness :
  Forall (fun reg =>
            parent (opts reg)
            = match rtype (ref reg) with
              | ComponentResource _ | AwsProvider => None
              | _ => Some (component_of "site")
              end
            /\ provider (opts reg)
               = match rtype (ref reg) with
                 | AcmCertificate | AcmCertificateValidation => Some east_provider
                 | _ => None
                 end
            /\ match args reg with
               | NewProvider a =>
                   ProviderArgs.region a = "us-east-1"
                   /\ ProviderArgs.profile a = config_profile demo_cloud
               | _ => True
               end)
         (registered demo_run.2).
Proof.
  refine (resources_owned_by_component demo_cloud "site" "www.example.com"
            (demo_bucket "content") demo_api None demo_run.2 _).
  vm_compute. reflexivity.
Defined.

(** ** index.js: the shape of the distribution *)


Example demo_run_one_distribution :
  length (distributions demo_run.2) = 1.
Proof. reflexivity. Qed.

(** X8. In a run that returns, the one distribution writes its access logs,
    without cookies and under the prefix of the target domain followed by a
    slash, to the bucket the caller gave or, when none was given, to the
    bucket created by the run. *)
Theorem distribution_logs_to_bucket (aws : Cloud) (name targetDomain : string)
    (contentBucket : Bucket) (apiGateway : ApiGateway) (logsBucket : option Bucket)
    (st : Run) :
  constructor aws name targetDomain contentBucket apiGateway logsBucket start
  = (Return tt, st) ->
  exists d : DistributionArgs.t,
    distributions st = [d]
    /\ DistributionArgs.loggingConfig d
       = {| LoggingConfig.bucket :=
              OfOutput match logsBucket with
                       | Some b => bucketDomainName b
                       | None => prop aws (logs_bucket_of name) "bucketDomainName"
                       end;
            LoggingConfig.includeCookies := false;
            LoggingConfig.prefix := targetDomain +:+ "/" |}.
Proof.
  intros H. destruct logsBucket; run_returned H p Hp.
  all: eexists; split; reflexivity.
Qed.

Lemma distribution_logs_to_bucket_witness :
  exists d : DistributionArgs.t,
    distributions demo_run.2 = [d]
    /\ DistributionArgs.loggingConfig d
       = {| LoggingConfig.bucket :=
              OfOutput (prop demo_cloud (logs_bucket_of "site") "bucketDomainName");
            LoggingConfig.includeCookies := false;
            LoggingConfig.prefix := "www.example.com" +:+ "/" |}.
Proof.
  refine (distribution_logs_to_bucket demo_cloud "site" "www.example.com"
            (demo_bucket "content") demo_api None demo_run.2 _).
  vm_compute. reflexivity.
Defined.

(** X9. In a run that returns, the one certificate is requested for the
    target domain with DNS validation, the one distribution has the target
    domain as its only alias, and the certificate the distribution serves
    (SNI only) is the ARN output of the certificate validation, not of the
    certificate itself. *)
Theorem distribution_serves_validated_certificate (aws : Cloud)
    (name targetDomain : string) (contentBucket : Bucket) (apiGateway : ApiGateway)
    (logsBucket : option Bucket) (st : Run) :
  constructor aws name targetDomain contentBucket apiGateway logsBucket start
  = (Return tt, st) ->
  exists d : DistributionArgs.t,
    distributions st = [d]
    /\ certificates st
       = [{| CertificateArgs.domainName := targetDomain;
             CertificateArgs.validationMethod := "DNS" |}]
    /\ DistributionArgs.aliases d = [targetDomain]
    /\ DistributionArgs.viewerCertificate d
       = {| ViewerCertificate.acmCertificateArn :=
              OfOutput (prop aws (certificate_validation_of name) "certificateArn");
            ViewerCertificate.sslSupportMethod := "sni-only" |}.
Proof.
  intros H. destruct logsBucket; run_returned H p Hp.
  all: eexists; repeat split.
Qed.

Lemma distribution_serves_validated_certificate_witness :
  exists d : DistributionArgs.t,
    distributions demo_run.2 = [d]
    /\ certificates demo_run.2
       = [{| CertificateArgs.domainName := "www.example.com";
             CertificateArgs.validationMethod := "DNS" |}]
    /\ DistributionArgs.aliases d = ["www.example.com"]
    /\ DistributionArgs.viewerCertificate d
       = {| ViewerCertificate.acmCertificateArn :=
              OfOutput (prop demo_cloud (certificate_validation_of "site") "certificateArn");
            ViewerCertificate.sslSupportMethod := "sni-only" |}.
Proof.
  refine (distribution_serves_validated_certificate demo_cloud "site" "www.example.com"
            (demo_bucket "content") demo_api None demo_run.2 _).
  vm_compute. reflexivity.
Defined.

(** ** index.js: more of the creation order *)

(** X10. In every order in which the engine may create the resources of a run
    that returns, the certificate is created before the validation record and
    before the certificate validation, and the distribution before the alias
    record; a logs bucket created by the run comes before the distribution. *)
Theorem certificate_first_alias_last (aws : Cloud) (name targetDomain : string)
    (contentBucket : Bucket) (apiGateway : ApiGateway) (logsBucket : option Bucket)
    (st : Run) (sched : list ResourceRef) :
  constructor aws name targetDomain contentBucket apiGateway logsBucket start
  = (Return tt, st) ->
  creation_order (registered st) sched = true ->
  precedes (certificate_of name) (validation_record_of name) sched
  /\ precedes (certificate_of name) (certificate_validation_of name) sched
  /\ precedes (distribution_of name) (alias_record_of name) sched
  /\ (logsBucket = None -> precedes (logs_bucket_of name) (distribution_of name) sched).
Proof.
  intros H Hord. destruct logsBucket; run_returned H p Hp.
  all: cbn [registered] in Hord.
  all: repeat split; try discriminate.
  all: try intros _.
  all: apply (creation_order_precedes _ _ _ _ Hord); find_dependency.
Qed.

Lemma certificate_first_alias_last_witness :
  precedes (certificate_of "site") (validation_record_of "site") demo_schedule
  /\ precedes (certificate_of "site") (certificate_validation_of "site") demo_schedule
  /\ precedes (distribution_of "site") (alias_record_of "site") demo_schedule
  /\ (@None Bucket = None ->
      precedes (logs_bucket_of "site") (distribution_of "site") demo_schedule).
Proof.
  refine (certificate_first_alias_last demo_cloud "site" "www.example.com"
            (demo_bucket "content") demo_api None demo_run.2 demo_schedule _ _).
  - vm_compute. reflexivity.
  - vm_compute. reflexivity.
Defined.

(** ** index.js: a zone that cannot be found *)

(** X11. A zone lookup that is rejected does not make the constructor throw:
    for a target domain that splits, the run returns, and both DNS records it
    registers carry the rejection, with its reason, as their zone id. *)
Theorem rejected_zone_is_deferred (aws : Cloud) (name targetDomain : string)
    (contentBucket : Bucket) (apiGateway : ApiGateway) (logsBucket : option Bucket)
    (p : DomainParts) (reason : string) :
  getDomainAndSubdomain targetDomain = Return p ->
  lookupZone aws (parentDomain p) = Promise.Rejected reason ->
  exists st,
    constructor aws name targetDomain contentBucket apiGateway logsBucket start
    = (Return tt, st)
    /\ length (dns_records st) = 2
    /\ Forall (fun r => RecordArgs.zoneId r.2 = OfPromise (Promise.Rejected reason))
              (dns_records st).
Proof.
  intros Hp Hz.
  destruct logsBucket; run_code; rewrite Hp; run_code.
  all: eexists; split; [reflexivity |]; split; [reflexivity |].
  all: unfold dns_records; cbn [registered omap args ref rname list_omap].
  all: repeat (apply Forall_cons; split;
               [cbn [snd RecordArgs.zoneId]; by rewrite Hz |]).
  all: apply Forall_nil_2.
Qed.

Lemma rejected_zone_is_deferred_witness :
  exists st,
    constructor demo_cloud_without_zone "site" "www.example.com" (demo_bucket "content")
      demo_api None start
    = (Return tt, st)
    /\ length (dns_records st) = 2
    /\ Forall (fun r => RecordArgs.zoneId r.2
                        = OfPromise (Promise.Rejected
                                       "no matching Route53Zone found: example.com."))
              (dns_records st).
Proof.
  apply (rejected_zone_is_deferred demo_cloud_without_zone "site" "www.example.com"
           (demo_bucket "content") demo_api None
           {| subdomain := "www"; parentDomain := "example.com." |}).
  - reflexivity.
  - reflexivity.
Defined.

(** ** index.js: the two callers of the domain splitter on their own *)

(** X12. On a target domain without a separator, [createAliasRecord] throws
    the error of the domain splitter and leaves the run as it was: nothing is
    looked up and nothing is registered. [provisionCertificate] throws the
    same error, but only after it has registered the provider and the
    certificate; it looks nothing up either. *)
Theorem splitter_error_in_callers (aws : Cloud) (self : ResourceRef)
    (name targetDomain : string) (distribution : ResourceRef) (st : Run) :
  Str.count_dots targetDomain = 0 ->
  createAliasRecord aws self name targetDomain distribution st
  = (Throw (Error ("No TLD found on " +:+ targetDomain)), st)
  /\ exists st',
       provisionCertificate aws self name targetDomain st
       = (Throw (Error ("No TLD found on " +:+ targetDomain)), st')
       /\ map ref (registered st')
          = map ref (registered st) ++ [east_provider; certificate_of name]
       /\ invokes st' = invokes st
       /\ outputs st' = outputs st
       /\ this st' = this st.
Proof.
  intros H. pose proof (split_cases targetDomain) as Hp. rewrite H in Hp.
  split.
  - unfold createAliasRecord, bind, lift. by rewrite Hp.
  - unfold provisionCertificate, bind, lift, new.
    cbn [registered invokes outputs this]. rewrite Hp.
    eexists. split; [reflexivity |].
    cbn [registered invokes outputs this].
    split; [| done]. rewrite <- app_assoc, map_app. reflexivity.
Qed.

Lemma splitter_error_in_callers_witness :
  createAliasRecord demo_cloud (component_of "site") "site" "localhost"
    (distribution_of "site") start
  = (Throw (Error ("No TLD found on " +:+ "localhost")), start)
  /\ exists st',
       provisionCertificate demo_cloud (component_of "site") "site" "localhost" start
       = (Throw (Error ("No TLD found on " +:+ "localhost")), st')
       /\ map ref (registered st')
          = map ref (registered start) ++ [east_provider; certificate_of "site"]
       /\ invokes st' = invokes start
       /\ outputs st' = outputs start
       /\ this st' = this start.
Proof.
  apply (splitter_error_in_callers demo_cloud (component_of "site") "site"
           "localhost" (distribution_of "site") start).
  reflexivity.
Defined.

(** ** index.js: the program order can be followed *)

Section ProgramOrder.

Variable regs : list Registration.

Lemma deps_of_inv (r d : ResourceRef) :
  In d (deps_of regs r) ->
  In d (map ref regs)
  /\ exists reg, In reg regs /\ ref reg = r /\ In d (dependencies reg).
Proof.
  unfold deps_of. intros Hd.
  apply list_elem_of_In, list_elem_of_filter in Hd as [Hin Hd].
  split; [by apply list_elem_of_In |].
  apply list_elem_of_In, in_concat in Hd as (ds & Hds & Hd).
  apply in_map_iff in Hds as (reg & <- & Hreg).
  apply list_elem_of_In, list_elem_of_filter in Hreg as [Href Hreg].
  exists reg. split; [by apply list_elem_of_In | done].
Qed.

Lemma deps_created (r : ResourceRef) (created : list ResourceRef) :
  (forall reg d, In reg regs -> ref reg = r -> In d (dependencies reg) ->
                 In d (map ref regs) -> In d created) ->
  forallb (fun d => bool_decide (d ∈ created)) (deps_of regs r) = true.
Proof.
  intros H. apply forallb_forall. intros d Hd.
  apply deps_of_inv in Hd as (Hin & reg & Hreg & Href & Hd).
  apply bool_decide_eq_true_2, list_elem_of_In. eauto.
Qed.

End ProgramOrder.

Lemma foreign_to_spec (st : Run) (rs : list ResourceRef) (d : ResourceRef) :
  foreign_to st rs = true -> In d rs -> In d (map ref (registered st)) -> False.
Proof.
  unfold foreign_to. rewrite forallb_forall. intros H Hd Hin.
  specialize (H d Hd). apply negb_true_iff, bool_decide_eq_false in H.
  by apply H, list_elem_of_In.
Qed.

(** Refutes that a registration is the one of another resource of the run. *)
Ltac refute_other_registration H :=
  first [ discriminate H
        | injection H as H; apply append_self in H; discriminate H
        | injection H as H; symmetry in H; apply append_self in H; discriminate H ].

(** X13. When none of the outputs passed in by the caller depends on a
    resource of the run, the order in which a run that returns registers its
    resources is itself an order in which the engine may create them: every
    argument of a resource comes from a resource registered before it. *)
Theorem program_order_is_creation_order (aws : Cloud) (name targetDomain : string)
    (contentBucket : Bucket) (apiGateway : ApiGateway) (logsBucket : option Bucket)
    (st : Run) :
  constructor aws name targetDomain contentBucket apiGateway logsBucket start
  = (Return tt, st) ->
  foreign_to st (caller_resources contentBucket apiGateway logsBucket) = true ->
  creation_order (registered st) (map ref (registered st)) = true.
Proof.
  intros H Hforeign.
  pose proof (fun d => foreign_to_spec st _ d Hforeign) as F.
  destruct logsBucket; run_returned H p Hp.
  all: cbn [registered] in F |- *.
  all: unfold creation_order; cbn [map ref creation_order_from].
  all: repeat (apply andb_true_intro; split); try reflexivity.
  all: apply deps_created; intros reg d Hreg Href Hd Hin.
  all: cbn [In] in Hreg.
  all: repeat (destruct Hreg as [<- | Hreg];
               [ cbn [ref] in Href; try (exfalso; refute_other_registration Href) |]);
         try (exfalso; exact Hreg).
  all: unfold dependencies in Hd; cbn in Hd; rewrite ?in_app_iff in Hd; cbn in Hd.
  all: repeat match type of Hd with
              | _ \/ _ => destruct Hd as [Hd | Hd]
              end.
  all: try (exfalso; exact Hd).
  all: try (subst d; cbn [In]; among).
  all: exfalso; apply (F d); [| exact Hin].
  all: unfold caller_resources; rewrite ?in_app_iff; tauto.
Qed.

Lemma program_order_is_creation_order_witness :
  creation_order (registered demo_run.2) (map ref (registered demo_run.2)) = true.
Proof.
  refine (program_order_is_creation_order demo_cloud "site" "www.example.com"
            (demo_bucket "content") demo_api None demo_run.2 _ _).
  - vm_compute. reflexivity.
  - vm_compute. reflexivity.
Defined.

(** ** index.js: the API origin *)

(** X14. When the URL of the API gateway resolves to [https://], a host
    without a slash, a slash and a path on one line, the second origin of the
    registered distribution has that bare host as its domain name, depending
    on the same resources as the URL; it is reached over HTTPS only, under
    the origin path [/stage]. *)
Theorem api_origin_is_bare_host (self : ResourceRef) (name targetDomain : string)
    (contentBucket : Bucket) (apiGateway : ApiGateway)
    (certificateArn : Output.t string) (logsBucket : Bucket) (st : Run)
    (host path : string) :
  slash_free host = true ->
  single_line path = true ->
  Output.promise (url apiGateway)
  = Promise.Resolved ("https://" +:+ host +:+ "/" +:+ path) ->
  exists (d : DistributionArgs.t) (api : Origin.t),
    distributions
      (createCloudFrontDistribution self name targetDomain contentBucket apiGateway
         certificateArn logsBucket st).2
    = distributions st ++ [d]
    /\ DistributionArgs.origins d !! 1 = Some api
    /\ Origin.domainName api
       = OfOutput {| Output.resources := Output.resources (url apiGateway);
                     Output.promise := Promise.Resolved host |}
    /\ Origin.originPath api = Some "/stage"
    /\ CustomOriginConfig.originProtocolPolicy (Origin.customOriginConfig api)
       = "https-only".
Proof.
  intros Hh Hp Hurl.
  destruct (replace_scheme_host "https://" host path "" (or_introl eq_refl) Hh Hp eq_refl)
    as [R _].
  assert (path +:+ "" = path) as Epath.
  { clear. induction path as [|c q IH]; [done |]. rewrite append_cons. by f_equal. }
  assert (host +:+ "" = host) as Ehost.
  { clear. induction host as [|c q IH]; [done |]. rewrite append_cons. by f_equal. }
  rewrite Epath, Ehost in R.
  do 2 eexists. split.
  { unfold distributions, createCloudFrontDistribution, new.
    cbn [snd registered]. rewrite omap_app. reflexivity. }
  split; [reflexivity |].
  cbn [Origin.domainName Origin.originPath Origin.customOriginConfig
       CustomOriginConfig.originProtocolPolicy].
  split; [| done].
  unfold Output.apply. by rewrite Hurl; cbn [Promise.then_]; rewrite R.
Qed.

Lemma api_origin_is_bare_host_witness :
  exists (d : DistributionArgs.t) (api : Origin.t),
    distributions
      (createCloudFrontDistribution (component_of "site") "site" "www.example.com"
         (demo_bucket "content") demo_api
         (prop demo_cloud (certificate_validation_of "site") "certificateArn")
         (demo_bucket "logs") start).2
    = distributions start ++ [d]
    /\ DistributionArgs.origins d !! 1 = Some api
    /\ Origin.domainName api
       = OfOutput {| Output.resources := Output.resources (url demo_api);
                     Output.promise :=
                       Promise.Resolved "abc.execute-api.eu-west-1.amazonaws.com" |}
    /\ Origin.originPath api = Some "/stage"
    /\ CustomOriginConfig.originProtocolPolicy (Origin.customOriginConfig api)
       = "https-only".
Proof.
  apply (api_origin_is_bare_host (component_of "site") "site" "www.example.com"
           (demo_bucket "content") demo_api
           (prop demo_cloud (certificate_validation_of "site") "certificateArn")
           (demo_bucket "logs") start
           "abc.execute-api.eu-west-1.amazonaws.com" "stage/");
    reflexivity.
Defined.

(** ** index.js: the properties of the instance *)

(** X15. After a run that returns, the instance has exactly the three
    properties [certificateArn], [cloudFrontDistribution] and [aliasRecord]:
    the ARN output of the certificate validation, the distribution and the
    alias record that the run registered. *)
Theorem instance_properties (aws : Cloud) (name targetDomain : string)
    (contentBucket : Bucket) (apiGateway : ApiGateway) (logsBucket : option Bucket)
    (st : Run) :
  constructor aws name targetDomain contentBucket apiGateway logsBucket start
  = (Return tt, st) ->
  dom (this st)
  = ({["certificateArn"; "cloudFrontDistribution"; "aliasRecord"]} : gset string)
  /\ this st !! "certificateArn"
     = Some (VOutput (prop aws (certificate_validation_of name) "certificateArn"))
  /\ this st !! "cloudFrontDistribution" = Some (VResource (distribution_of name))
  /\ this st !! "aliasRecord" = Some (VResource (alias_record_of name))
  /\ distribution_of name ∈ map ref (registered st)
  /\ alias_record_of name ∈ map ref (registered st)
  /\ certificate_validation_of name ∈ map ref (registered st).
Proof.
  intros H. destruct logsBucket; run_returned H p Hp.
  all: cbn [this registered map ref].
  all: split; [rewrite !dom_insert_L, dom_empty_L; set_solver |].
  all: do 3 (split; [by simplify_map_eq |]).
  all: repeat split; apply list_elem_of_In; cbn [In]; among.
Qed.

Lemma instance_properties_witness :
  dom (this demo_run.2)
  = ({["certificateArn"; "cloudFrontDistribution"; "aliasRecord"]} : gset string)
  /\ this demo_run.2 !! "certificateArn"
     = Some (VOutput (prop demo_cloud (certificate_validation_of "site") "certificateArn"))
  /\ this demo_run.2 !! "cloudFrontDistribution" = Some (VResource (distribution_of "site"))
  /\ this demo_run.2 !! "aliasRecord" = Some (VResource (alias_record_of "site"))
  /\ distribution_of "site" ∈ map ref (registered demo_run.2)
  /\ alias_record_of "site" ∈ map ref (registered demo_run.2)
  /\ certificate_validation_of "site" ∈ map ref (registered demo_run.2).
Proof.
  refine (instance_properties demo_cloud "site" "www.example.com"
            (demo_bucket "content") demo_api None demo_run.2 _).
  vm_compute. reflexivity.
Defined.

(** ** index.js: the alias record of a subdomain *)

(** X16. For a target domain made of a separator-free label, a separator and
    a rest that contains a separator, [createAliasRecord] looks up the zone
    named by the rest followed by a separator and registers, as a child of
    the component, an A record named by the label in that zone; the record is
    an alias of the distribution (its domain name and hosted zone) with
    target health evaluated. *)
Theorem subdomain_alias_record (aws : Cloud) (self : ResourceRef)
    (name label rest : string) (distribution : ResourceRef) (st : Run) :
  Str.dot_free label = true ->
  1 <= Str.count_dots rest ->
  createAliasRecord aws self name (label +:+ "." +:+ rest) distribution st
  = (Return (alias_record_of name),
     {| registered := registered st
          ++ [{| ref := alias_record_of name;
                 args := NewRecord
                   {| RecordArgs.name := Plain label;
                      RecordArgs.zoneId :=
                        OfPromise (Promise.then_ zoneId (lookupZone aws (rest +:+ ".")));
                      RecordArgs.type := Plain "A";
                      RecordArgs.records := None;
                      RecordArgs.ttl := None;
                      RecordArgs.aliases := Some [
                        {| RecordAlias.name := OfOutput (prop aws distribution "domainName");
                           RecordAlias.zoneId :=
                             OfOutput (prop aws distribution "hostedZoneId");
                           RecordAlias.evaluateTargetHealth := true |} ] |};
                 opts := {| parent := Some self; provider := None |} |}];
        invokes := invokes st ++ [GetZone (rest +:+ ".")];
        outputs := outputs st; this := this st |}).
Proof.
  intros Hl Hr. unfold createAliasRecord, bind, lift, getZone, new.
  by rewrite (split_label_many label rest Hl Hr).
Qed.

Lemma subdomain_alias_record_witness :
  createAliasRecord demo_cloud (component_of "site") "site"
    ("www" +:+ "." +:+ "example.com") (distribution_of "site") start
  = (Return (alias_record_of "site"),
     {| registered := registered start
          ++ [{| ref := alias_record_of "site";
                 args := NewRecord
                   {| RecordArgs.name := Plain "www";
                      RecordArgs.zoneId :=
                        OfPromise (Promise.then_ zoneId
                                     (lookupZone demo_cloud ("example.com" +:+ ".")));
                      RecordArgs.type := Plain "A";
                      RecordArgs.records := None;
                      RecordArgs.ttl := None;
                      RecordArgs.aliases := Some [
                        {| RecordAlias.name :=
                             OfOutput (prop demo_cloud (distribution_of "site") "domainName");
                           RecordAlias.zoneId :=
                             OfOutput (prop demo_cloud (distribution_of "site") "hostedZoneId");
                           RecordAlias.evaluateTargetHealth := true |} ] |};
                 opts := {| parent := Some (component_of "site"); provider := None |} |}];
        invokes := invokes start ++ [GetZone ("example.com" +:+ ".")];
        outputs := outputs start; this := this start |}).
Proof.
  apply (subdomain_alias_record demo_cloud (component_of "site") "site" "www"
           "example.com" (distribution_of "site") start eq_refl).
  simpl. lia.
Defined.
